(** * Madeira Pass: distance, paid-route ledger and proximity check

    A shallow embedding of [src/utils/distance.ts], [src/utils/cookies.ts]
    and the route-loading and proximity effects of [src/App.tsx], followed
    by the properties of the specification stated over that embedding.

    JavaScript numbers are IEEE 754 binary64 values, which is what Rocq's
    primitive [float] is, so arithmetic and comparisons are the kernel's
    own; [Math.sin], [Math.cos] and [Math.atan2] are left to the host (the
    language standard only asks for an approximation) and enter through the
    [JsMath] interface. *)

From Stdlib Require Import List String Bool ZArith Lia Floats.
Import ListNotations.

Local Open Scope float_scope.

(** ** The host's [Math] object *)

Class JsMath : Type := {
  Math_sin : float -> float;
  Math_cos : float -> float;
  Math_atan2 : float -> float -> float
}.

(** [Math.PI], the binary64 value nearest to pi. *)
Definition Math_PI : float := 0x1.921fb54442d18p+1.

(** [Math.sqrt] is the correctly rounded square root. *)
Definition Math_sqrt (x : float) : float := sqrt x.

(** [Math.min] of two numbers: NaN when either is NaN, and a negative zero
    counts as smaller than a positive one. *)
Definition Math_min (a b : float) : float :=
  if is_nan a || is_nan b then nan
  else if a <? b then a
  else if b <? a then b
  else if is_zero a && get_sign a then a
  else b.

(** A stand-in host used to run the definitions on concrete inputs: the
    small-angle approximations [sin x = x], [cos x = 1] and
    [atan2 y x = y / x].  Only the closed examples use it. *)
Definition smallAngleMath : JsMath := {|
  Math_sin := fun x => x;
  Math_cos := fun _ => 1;
  Math_atan2 := fun y x => y / x
|}.

(** ** [src/utils/distance.ts] *)

Module Distance.

(** A GeoJSON position, read by the code as [[lon, lat]]. *)
Definition Position : Type := (float * float)%type.

(** [GeoJSON.Geometry], a union tagged by its [type] field. *)
#[warnings="-register-all"]
Inductive Geometry : Type :=
| Point (coordinates : Position)
| MultiPoint (coordinates : list Position)
| LineString (coordinates : list Position)
| MultiLineString (coordinates : list (list Position))
| Polygon (coordinates : list (list Position))
| MultiPolygon (coordinates : list (list (list Position)))
| GeometryCollection (geometries : list Geometry).

(** The variants [distanceToGeometry] has a branch for. *)
Definition handledVariant (geometry : Geometry) : bool :=
  match geometry with
  | Point _ | LineString _ | MultiLineString _ => true
  | _ => false
  end.

Section WithMath.
Context {M : JsMath}.

(** Haversine distance in meters. *)
Definition calculateDistance (lat1 lon1 lat2 lon2 : float) : float :=
  let R := 6371000 in
  let phi1 := (lat1 * Math_PI) / 180 in
  let phi2 := (lat2 * Math_PI) / 180 in
  let dphi := ((lat2 - lat1) * Math_PI) / 180 in
  let dlambda := ((lon2 - lon1) * Math_PI) / 180 in
  let a :=
    Math_sin (dphi / 2) * Math_sin (dphi / 2) +
    Math_cos phi1 * Math_cos phi2 * Math_sin (dlambda / 2) * Math_sin (dlambda / 2) in
  let c := 2 * Math_atan2 (Math_sqrt a) (Math_sqrt (1 - a)) in
  R * c.

(** The value of [param] once the guard [lenSq !== 0] has been passed:
    [-1] unless the guard lets the division through. *)
Definition segmentParam (px py x1 y1 x2 y2 : float) : float :=
  let A := px - x1 in
  let B := py - y1 in
  let C := x2 - x1 in
  let D := y2 - y1 in
  let dot := A * C + B * D in
  let lenSq := C * C + D * D in
  if negb (lenSq =? 0) then dot / lenSq else -1.

(** The point [(xx, yy)] of the segment chosen by the three-way branch. *)
Definition segmentFoot (px py x1 y1 x2 y2 : float) : float * float :=
  let C := x2 - x1 in
  let D := y2 - y1 in
  let param := segmentParam px py x1 y1 x2 y2 in
  if param <? 0 then (x1, y1)
  else if 1 <? param then (x2, y2)
  else (x1 + param * C, y1 + param * D).

(** Minimum distance from a point to a line segment. *)
Definition distanceToSegment (px py x1 y1 x2 y2 : float) : float :=
  let '(xx, yy) := segmentFoot px py x1 y1 x2 y2 in
  calculateDistance py px yy xx.

(** The loop [for (i = 0; i < coordinates.length - 1; i++)] over the
    consecutive pairs of a line, threading [minDistance]. *)
Fixpoint scanLine (latitude longitude : float)
    (coordinates : list Position) (minDistance : float) : float :=
  match coordinates with
  | (lon1, lat1) :: (((lon2, lat2) :: _) as rest) =>
      let distance := distanceToSegment longitude latitude lon1 lat1 lon2 lat2 in
      scanLine latitude longitude rest (Math_min minDistance distance)
  | _ => minDistance
  end.

(** Minimum distance from a point to a GeoJSON geometry, in meters. *)
Definition distanceToGeometry (latitude longitude : float)
    (geometry : Geometry) : float :=
  match geometry with
  | LineString coordinates =>
      scanLine latitude longitude coordinates infinity
  | MultiLineString coordinates =>
      fold_left
        (fun minDistance lineString =>
           scanLine latitude longitude lineString minDistance)
        coordinates infinity
  | Point (lon, lat) =>
      calculateDistance latitude longitude lat lon
  | _ => infinity
  end.

End WithMath.

End Distance.

(** ** [src/types/index.ts] *)

Module Types.

Record RouteProperties : Type := {
  id : string;
  name : string;
  requiresPayment : bool
}.

Record RouteFeature : Type := {
  properties : RouteProperties;
  geometry : Distance.Geometry
}.

Record RouteCollection : Type := {
  features : list RouteFeature
}.

Record UserLocation : Type := {
  latitude : float;
  longitude : float;
  accuracy : float
}.

Record PaidRoute : Type := {
  routeId : string;
  paidDate : string
}.

Record NearbyRoute : Type := {
  route : RouteFeature;
  distance : float
}.

Inductive InfoPanelView : Type :=
| main | routes_list | pass_info | about | route_detail.

Record InfoPanelState : Type := {
  isOpen : bool;
  view : InfoPanelView;
  selectedRoute : option RouteFeature;
  nearbyRoute : option NearbyRoute
}.

End Types.

(** ** [src/utils/cookies.ts] *)

Module Cookies.
Import Types.

(** What [document.cookie] holds under [COOKIE_NAME]: nothing, a value that
    [decodeURIComponent] or [JSON.parse] rejects, or the encoding of an
    array of [PaidRoute]s.  [JSON.stringify] followed by [JSON.parse] gives
    back an array of records with the same two string fields, so the stored
    value is kept decoded. *)
Inductive Cookie : Type :=
| Absent
| Unparseable
| Stored (paidRoutes : list PaidRoute).

(** Get all paid routes from cookie. *)
Definition getPaidRoutes (cookie : Cookie) : list PaidRoute :=
  match cookie with
  | Absent => []
  | Unparseable => []
  | Stored paidRoutes => paidRoutes
  end.

(** Check if a route has been paid for today.  [today] stands for
    [new Date().toISOString().split('T')[0]] at the time of the call. *)
Definition isRoutePaid (today : string) (cookie : Cookie)
    (routeId : string) : bool :=
  let paidRoutes := getPaidRoutes cookie in
  existsb
    (fun route =>
       (route.(Types.routeId) =? routeId)%string &&
       (route.(paidDate) =? today)%string)
    paidRoutes.

(** Mark a route as paid; the result is the cookie written back. *)
Definition markRoutePaid (today : string) (cookie : Cookie)
    (routeId : string) : Cookie :=
  let paidRoutes := getPaidRoutes cookie in
  let filteredRoutes :=
    filter (fun route => negb (route.(Types.routeId) =? routeId)%string)
      paidRoutes in
  Stored (filteredRoutes ++ [{| routeId := routeId; paidDate := today |}]).

(** Clear all paid routes: the cookie is rewritten with an expiry in the
    past, which removes it. *)
Definition clearPaidRoutes (cookie : Cookie) : Cookie := Absent.

(** Modelled from the spec: [unmarkRoutePaid], which [App.tsx] imports from
    [utils/cookies] but whose body is not in the sources at hand.  The
    specification says it removes any mark for the route whatever its date
    and does nothing, without failing, when there is none; written here in
    the shape of [markRoutePaid] without its [push]. *)
Definition unmarkRoutePaid (cookie : Cookie) (routeId : string) : Cookie :=
  let paidRoutes := getPaidRoutes cookie in
  let filteredRoutes :=
    filter (fun route => negb (route.(Types.routeId) =? routeId)%string)
      paidRoutes in
  Stored filteredRoutes.

(** The write operations of the ledger, and a run of them. *)
Inductive LedgerOp : Type :=
| MarkPaid (routeId today : string)
| UnmarkPaid (routeId : string)
| Clear.

Definition applyOp (cookie : Cookie) (op : LedgerOp) : Cookie :=
  match op with
  | MarkPaid routeId today => markRoutePaid today cookie routeId
  | UnmarkPaid routeId => unmarkRoutePaid cookie routeId
  | Clear => clearPaidRoutes cookie
  end.

Definition applyOps (cookie : Cookie) (ops : list LedgerOp) : Cookie :=
  fold_left applyOp ops cookie.

(** The number of stored marks that carry a given route id. *)
Definition marksFor (routeId : string) (cookie : Cookie) : nat :=
  List.length
    (filter (fun route => (route.(Types.routeId) =? routeId)%string)
       (getPaidRoutes cookie)).

(** At most one stored mark per route id. *)
Definition oneMarkPerRoute (cookie : Cookie) : Prop :=
  forall routeId, (marksFor routeId cookie <= 1)%nat.

End Cookies.

(** ** [src/components/InfoPanel.tsx]: what the route-detail view says *)

Module InfoPanel.
Import Types.

(** The message blocks of the route-detail view, by their CSS class. *)
Inductive Message : Type :=
| warning_message
| success_message
| info_message.

(** The four conditional blocks at the top of [renderRouteDetail];
    [isPaid] is [isRoutePaid(routeId)] at render time and [distance] is
    [undefined] when the panel carries no nearby route. *)
Definition renderRouteDetail (isPaid : bool) (distance : option float)
    : list Message :=
  let isNearby :=
    match distance with
    | Some d => d <=? 50
    | None => false
    end in
  (if isNearby && negb isPaid then [warning_message] else []) ++
  (if isNearby && isPaid then [success_message] else []) ++
  (if negb isNearby && negb isPaid then [info_message] else []) ++
  (if negb isNearby && isPaid then [success_message] else []).

(** [renderContent], as far as the route-detail messages go: the other
    views show none of them. *)
Definition renderContent (today : string) (cookie : Cookies.Cookie)
    (state : InfoPanelState) : list Message :=
  match state.(view), state.(selectedRoute) with
  | route_detail, Some selected =>
      renderRouteDetail
        (Cookies.isRoutePaid today cookie selected.(properties).(id))
        (option_map distance state.(nearbyRoute))
  | _, _ => []
  end.

End InfoPanel.

(** ** [src/App.tsx] *)

Module App.
Import Types.

Definition PROXIMITY_THRESHOLD : float := 50.

(** What [fetch(...)] followed by [res.json()] delivers to the loading
    effect: a rejected promise, or a response with its [ok] flag and a body
    that parses to a feature collection or does not. *)
Inductive FetchResult : Type :=
| Rejected
| Response (ok : bool) (json : option RouteCollection).

(** The route-loading effect: [setRoutes(data)] when the response is [ok]
    and its body parses; every other path ends in the [catch] that logs
    and leaves [routes] as it was. *)
Definition loadRoutes (res : FetchResult)
    (routes : option RouteCollection) : option RouteCollection :=
  match res with
  | Response true (Some data) => Some data
  | _ => routes
  end.

(** The two conditions under which the specification wants a catalogue
    refused.  The loading effect has no counterpart to them; they are here
    to state what it does with such a catalogue. *)
Fixpoint hasDuplicateId (features : list RouteFeature) : bool :=
  match features with
  | [] => false
  | feature :: rest =>
      existsb
        (fun other =>
           (other.(properties).(id) =? feature.(properties).(id))%string)
        rest
      || hasDuplicateId rest
  end.

Definition hasUnhandledGeometry (features : list RouteFeature) : bool :=
  existsb
    (fun feature => negb (Distance.handledVariant feature.(geometry)))
    features.

Definition invalidCatalogue (data : RouteCollection) : bool :=
  hasDuplicateId data.(features) || hasUnhandledGeometry data.(features).

Section WithMath.
Context {M : JsMath}.

(** The body of the scan loop over [routes.features]. *)
Definition scanStep (userLocation : UserLocation)
    (acc : option NearbyRoute * float) (feature : RouteFeature)
    : option NearbyRoute * float :=
  let '(closestRoute, minDistance) := acc in
  let distance :=
    Distance.distanceToGeometry
      userLocation.(latitude) userLocation.(longitude)
      feature.(geometry) in
  if distance <? minDistance
  then (Some {| route := feature; distance := distance |}, distance)
  else (closestRoute, minDistance).

(** The distance the loop computes for a feature. *)
Definition routeDistance (userLocation : UserLocation)
    (feature : RouteFeature) : float :=
  Distance.distanceToGeometry
    userLocation.(latitude) userLocation.(longitude) feature.(geometry).

(** What the loop variables hold once the features [seen] have been
    visited: no visited feature is strictly below [minDistance]; and
    [closestRoute] is either still [null], with [minDistance] at
    [Infinity], or a visited feature at [minDistance], itself below
    [Infinity], with every feature visited before it strictly farther or
    at no comparable distance. *)
Definition nearestSoFar (userLocation : UserLocation)
    (seen : list RouteFeature) (acc : option NearbyRoute * float) : Prop :=
  let '(closestRoute, minDistance) := acc in
  (forall g, In g seen -> (routeDistance userLocation g <? minDistance) = false) /\
  match closestRoute with
  | None => minDistance = infinity
  | Some closest =>
      closest.(distance) = minDistance /\
      routeDistance userLocation closest.(route) = minDistance /\
      (minDistance <? infinity) = true /\
      exists before after,
        seen = before ++ closest.(route) :: after /\
        forall g, In g before ->
                  (routeDistance userLocation g <=? minDistance) = false
  end.

(** The nearest-route scan: [closestRoute] and [minDistance] after the
    loop, started from [null] and [Infinity]. *)
Definition closestRouteScan (userLocation : UserLocation)
    (features : list RouteFeature) : option NearbyRoute * float :=
  fold_left (scanStep userLocation) features (None, infinity).

(** The proximity effect up to its call of [setInfoPanelState]: the state
    it passes, or [None] when it makes no call. *)
Definition proximityUpdate (today : string) (cookie : Cookies.Cookie)
    (userLocation : option UserLocation) (routes : option RouteCollection)
    : option InfoPanelState :=
  match userLocation, routes with
  | Some location, Some collection =>
      let '(closestRoute, _) :=
        closestRouteScan location collection.(features) in
      match closestRoute with
      | Some closest =>
          if closest.(distance) <=? PROXIMITY_THRESHOLD then
            let routeId := closest.(route).(properties).(id) in
            let requiresPayment :=
              closest.(route).(properties).(requiresPayment) in
            let isPaid := Cookies.isRoutePaid today cookie routeId in
            if requiresPayment && negb isPaid then
              Some {| isOpen := true;
                      view := route_detail;
                      selectedRoute := Some closest.(route);
                      nearbyRoute := Some closest |}
            else None
          else None
      | None => None
      end
  | _, _ => None
  end.

(** The proximity effect on [infoPanelState]. *)
Definition proximityEffect (today : string) (cookie : Cookies.Cookie)
    (userLocation : option UserLocation) (routes : option RouteCollection)
    (infoPanelState : InfoPanelState) : InfoPanelState :=
  match proximityUpdate today cookie userLocation routes with
  | Some state => state
  | None => infoPanelState
  end.

(** The specification's three actions. *)
Inductive Action : Type :=
| action_none
| show_info
| show_warning.

(** The effect read in the specification's terms: no action when the
    effect does not touch the panel; otherwise the panel is opened, with
    the warning when the view it selects renders [warning_message] and as
    plain information when it does not. *)
Definition proximityAction (today : string) (cookie : Cookies.Cookie)
    (userLocation : option UserLocation) (routes : option RouteCollection)
    : Action :=
  match proximityUpdate today cookie userLocation routes with
  | None => action_none
  | Some state =>
      if existsb
           (fun m => match m with
                     | InfoPanel.warning_message => true
                     | _ => false
                     end)
           (InfoPanel.renderContent today cookie state)
      then show_warning
      else show_info
  end.

End WithMath.

(** [handleMarkPaid] and [handleUnmarkPaid]: the cookie after the call and
    the refreshed [paidRouteIds]. *)
Definition handleMarkPaid (today : string) (cookie : Cookies.Cookie)
    (routeId : string) : Cookies.Cookie * list string :=
  let cookie' := Cookies.markRoutePaid today cookie routeId in
  let paid := Cookies.getPaidRoutes cookie' in
  (cookie', map Types.routeId paid).

Definition handleUnmarkPaid (cookie : Cookies.Cookie)
    (routeId : string) : Cookies.Cookie * list string :=
  let cookie' := Cookies.unmarkRoutePaid cookie routeId in
  let paid := Cookies.getPaidRoutes cookie' in
  (cookie', map Types.routeId paid).

End App.

(** ** Concrete inputs for the closed examples *)

Module Scenario.
Import Types.

#[local] Set Warnings "-inexact-float".

(** Route PR8 of the specification's scenario, a three-point line. *)
Definition pr8 : RouteFeature := {|
  properties := {| id := "PR8"; name := "PR 8"; requiresPayment := true |};
  geometry :=
    Distance.LineString
      [(-16.95, 32.75); (-16.94, 32.76); (-16.93, 32.77)]
|}.

(** A fix on the first segment of [pr8]. *)
Definition fixOnPr8 : UserLocation :=
  {| latitude := 32.751; longitude := -16.949; accuracy := 10 |}.

(** A feature whose geometry is a polygon. *)
Definition lagoon : RouteFeature := {|
  properties := {| id := "LAG"; name := "Lagoon"; requiresPayment := false |};
  geometry :=
    Distance.Polygon
      [[(-16.95, 32.75); (-16.94, 32.75); (-16.94, 32.76); (-16.95, 32.75)]]
|}.

(** A catalogue that repeats an id and carries a polygon. *)
Definition badCatalogue : RouteCollection :=
  {| features := [pr8; lagoon; pr8] |}.

(** A line whose first position has no longitude to speak of. *)
Definition brokenLine : RouteFeature := {|
  properties := {| id := "PR1"; name := "PR 1"; requiresPayment := true |};
  geometry := Distance.LineString [(nan, 32.75); (-16.94, 32.76)]
|}.

(** A line geometry without a single segment. *)
Definition stubLine : RouteFeature := {|
  properties := {| id := "PR2"; name := "PR 2"; requiresPayment := true |};
  geometry := Distance.MultiLineString [[(-16.95, 32.75)]; []]
|}.

(** A free route along the same line as [pr8]. *)
Definition freeWalk : RouteFeature := {|
  properties := {| id := "FW"; name := "Free walk"; requiresPayment := false |};
  geometry :=
    Distance.LineString
      [(-16.95, 32.75); (-16.94, 32.76); (-16.93, 32.77)]
|}.

(** A fix in Funchal, away from [pr8]. *)
Definition fixInFunchal : UserLocation :=
  {| latitude := 32.65; longitude := -16.91; accuracy := 10 |}.

(** A fix in Lisbon. *)
Definition fixInLisbon : UserLocation :=
  {| latitude := 38.72; longitude := -9.14; accuracy := 10 |}.

#[local] Set Warnings "+inexact-float".

End Scenario.

(** ** [src/utils/distance.ts]: the values the line loops minimise *)

Module Lines.
Import Distance.

Section WithMath.
Context {M : JsMath}.

(** The value of [distance] at each turn of the loop over a line, in loop
    order: one per pair of consecutive positions. *)
Fixpoint segmentDistances (latitude longitude : float)
    (coordinates : list Position) : list float :=
  match coordinates with
  | (lon1, lat1) :: (((lon2, lat2) :: _) as rest) =>
      distanceToSegment longitude latitude lon1 lat1 lon2 lat2
      :: segmentDistances latitude longitude rest
  | _ => []
  end.

(** All the values of [distance] the loops of [distanceToGeometry] go
    through for a geometry, in loop order; none outside the two line
    variants. *)
Definition loopDistances (latitude longitude : float)
    (geometry : Geometry) : list float :=
  match geometry with
  | LineString coordinates =>
      segmentDistances latitude longitude coordinates
  | MultiLineString coordinates =>
      flat_map (segmentDistances latitude longitude) coordinates
  | _ => []
  end.

End WithMath.

(** A line geometry none of whose lines has two positions. *)
Definition degenerateLine (geometry : Geometry) : bool :=
  match geometry with
  | LineString coordinates => Nat.ltb (List.length coordinates) 2
  | MultiLineString coordinates =>
      forallb (fun lineString => Nat.ltb (List.length lineString) 2)
        coordinates
  | _ => false
  end.

End Lines.

(** ** [src/utils/geolocation.ts] *)

Module Geolocation.

(** The shape of the two bounds objects. *)
Record Bounds : Type := {
  north : float;
  south : float;
  east : float;
  west : float
}.

#[local] Set Warnings "-inexact-float".

(** Madeira island bounds (approximate). *)
Definition madeiraBounds : Bounds :=
  {| north := 32.89; south := 32.60; east := -16.65; west := -17.30 |}.

(** Porto Santo island bounds (approximate). *)
Definition portoSantoBounds : Bounds :=
  {| north := 33.10; south := 33.04; east := -16.28; west := -16.42 |}.

#[local] Set Warnings "+inexact-float".

(** Check if coordinates are within the bounds of Madeira or Porto Santo;
    [a >= b] is [b <= a] on numbers. *)
Definition isInMadeira (latitude longitude : float) : bool :=
  let inMadeira :=
    (madeiraBounds.(south) <=? latitude) &&
    (latitude <=? madeiraBounds.(north)) &&
    (madeiraBounds.(west) <=? longitude) &&
    (longitude <=? madeiraBounds.(east)) in
  let inPortoSanto :=
    (portoSantoBounds.(south) <=? latitude) &&
    (latitude <=? portoSantoBounds.(north)) &&
    (portoSantoBounds.(west) <=? longitude) &&
    (longitude <=? portoSantoBounds.(east)) in
  inMadeira || inPortoSanto.

End Geolocation.

(** ** [src/components/Map.tsx] *)

Module MapView.
Import Types.

(** [selectedRouteId || '']. *)
Definition selectedOrEmpty (selectedRouteId : option string) : string :=
  match selectedRouteId with
  | Some routeId => routeId
  | None => ""
  end.

(** The [line-color] expression of the routes layer, evaluated on a
    feature with the given [id]: the first matching branch of the [case]. *)
Definition lineColor (selectedRouteId : option string)
    (paidRoutes : list string) (id : string) : string :=
  if (id =? selectedOrEmpty selectedRouteId)%string then "#4a90e2"
  else if existsb (String.eqb id) paidRoutes then "#51cf66"
  else "#ff6b6b".

(** The [line-width] expression of the routes layer. *)
Definition lineWidth (selectedRouteId : option string) (id : string) : float :=
  if (id =? selectedOrEmpty selectedRouteId)%string then 5 else 3.

(** What the location effect keeps between runs: the marker's position
    ([userMarkerRef.current], [None] before the marker exists) and
    [hasMovedToUser]. *)
Record MarkerState : Type := {
  userMarker : option (float * float);
  hasMovedToUser : bool
}.

(** The location effect: the state it leaves and the centre it flies to,
    if it does.  [mapReady] says whether [mapRef.current] is set. *)
Definition locationEffect (mapReady : bool)
    (userLocation : option UserLocation) (state : MarkerState)
    : MarkerState * option (float * float) :=
  match mapReady, userLocation with
  | true, Some location =>
      let inMadeira :=
        Geolocation.isInMadeira location.(latitude) location.(longitude) in
      let lngLat := (location.(longitude), location.(latitude)) in
      match state.(userMarker) with
      | Some _ =>
          ({| userMarker := Some lngLat;
              hasMovedToUser := state.(hasMovedToUser) |}, None)
      | None =>
          if inMadeira && negb state.(hasMovedToUser) then
            ({| userMarker := Some lngLat; hasMovedToUser := true |},
             Some lngLat)
          else
            ({| userMarker := Some lngLat;
                hasMovedToUser := state.(hasMovedToUser) |}, None)
      end
  | _, _ => (state, None)
  end.

(** The effect run over a sequence of renders, each with its [mapReady]
    and [userLocation]; the centres flown to, in order. *)
Fixpoint locationEffects (renders : list (bool * option UserLocation))
    (state : MarkerState) : MarkerState * list (float * float) :=
  match renders with
  | [] => (state, [])
  | (mapReady, userLocation) :: rest =>
      let '(state', flown) := locationEffect mapReady userLocation state in
      let '(final, flights) := locationEffects rest state' in
      (final,
       match flown with
       | Some centre => centre :: flights
       | None => flights
       end)
  end.

Definition initialMarkerState : MarkerState :=
  {| userMarker := None; hasMovedToUser := false |}.

End MapView.

(** ** [src/App.tsx]: state and event handlers *)

Module AppEvents.
Import Types.

(** The pieces of component state the handlers and effects below touch. *)
Record AppState : Type := {
  userLocation : option UserLocation;
  routes : option RouteCollection;
  paidRouteIds : list string;
  selectedRouteId : option string;
  infoPanelState : InfoPanelState
}.

Definition initialState : AppState := {|
  userLocation := None;
  routes := None;
  paidRouteIds := [];
  selectedRouteId := None;
  infoPanelState :=
    {| isOpen := false; view := main;
       selectedRoute := None; nearbyRoute := None |}
|}.

(** [routes.features.find(f => f.properties.id === routeId)]. *)
Definition findRoute (routeId : string) (collection : RouteCollection)
    : option RouteFeature :=
  find (fun f => (f.(properties).(id) =? routeId)%string)
    collection.(features).

Definition handleRouteClick (routeId : string) (state : AppState) : AppState :=
  match state.(routes) with
  | None => state
  | Some collection =>
      match findRoute routeId collection with
      | Some route =>
          {| userLocation := state.(userLocation);
             routes := state.(routes);
             paidRouteIds := state.(paidRouteIds);
             selectedRouteId := Some routeId;
             infoPanelState :=
               {| isOpen := true; view := route_detail;
                  selectedRoute := Some route; nearbyRoute := None |} |}
      | None => state
      end
  end.

(** [setInfoPanelState(prev => ({ ...prev, isOpen: false }))]. *)
Definition closePanel (prev : InfoPanelState) : InfoPanelState :=
  {| isOpen := false;
     view := prev.(view);
     selectedRoute := prev.(selectedRoute);
     nearbyRoute := prev.(nearbyRoute) |}.

Definition handleMapClick (state : AppState) : AppState :=
  {| userLocation := state.(userLocation);
     routes := state.(routes);
     paidRouteIds := state.(paidRouteIds);
     selectedRouteId := None;
     infoPanelState := closePanel state.(infoPanelState) |}.

Definition handleClosePanel (state : AppState) : AppState :=
  {| userLocation := state.(userLocation);
     routes := state.(routes);
     paidRouteIds := state.(paidRouteIds);
     selectedRouteId := None;
     infoPanelState := closePanel state.(infoPanelState) |}.

Definition handleMenuNavigation (view : InfoPanelView) (state : AppState)
    : AppState :=
  {| userLocation := state.(userLocation);
     routes := state.(routes);
     paidRouteIds := state.(paidRouteIds);
     selectedRouteId := state.(selectedRouteId);
     infoPanelState :=
       {| isOpen := true; view := view;
          selectedRoute := None; nearbyRoute := None |} |}.

(** [setPaidRouteIds(getPaidRoutes().map(r => r.routeId))], as run on
    mount and at the end of [handleMarkPaid] and [handleUnmarkPaid]. *)
Definition refreshPaidRouteIds (cookie : Cookies.Cookie) (state : AppState)
    : AppState :=
  {| userLocation := state.(userLocation);
     routes := state.(routes);
     paidRouteIds := map Types.routeId (Cookies.getPaidRoutes cookie);
     selectedRouteId := state.(selectedRouteId);
     infoPanelState := state.(infoPanelState) |}.

Section WithMath.
Context {M : JsMath}.

(** The proximity effect as it runs after [userLocation] or [routes]
    changed. *)
Definition runProximity (today : string) (cookie : Cookies.Cookie)
    (state : AppState) : AppState :=
  {| userLocation := state.(userLocation);
     routes := state.(routes);
     paidRouteIds := state.(paidRouteIds);
     selectedRouteId := state.(selectedRouteId);
     infoPanelState :=
       App.proximityEffect today cookie
         state.(userLocation) state.(routes) state.(infoPanelState) |}.

(** A location fix: [setUserLocation(location)], then the proximity
    effect. *)
Definition onLocation (today : string) (cookie : Cookies.Cookie)
    (location : UserLocation) (state : AppState) : AppState :=
  runProximity today cookie
    {| userLocation := Some location;
       routes := state.(routes);
       paidRouteIds := state.(paidRouteIds);
       selectedRouteId := state.(selectedRouteId);
       infoPanelState := state.(infoPanelState) |}.

(** The outcome of the route fetch: the loading effect, then the
    proximity effect when [setRoutes] was called. *)
Definition onRoutesFetched (today : string) (cookie : Cookies.Cookie)
    (res : App.FetchResult) (state : AppState) : AppState :=
  match res with
  | App.Response true (Some _) =>
      runProximity today cookie
        {| userLocation := state.(userLocation);
           routes := App.loadRoutes res state.(routes);
           paidRouteIds := state.(paidRouteIds);
           selectedRouteId := state.(selectedRouteId);
           infoPanelState := state.(infoPanelState) |}
  | _ => state
  end.

(** What can happen to the component. *)
Inductive Event : Type :=
| LocationFix (location : UserLocation)
| RoutesFetched (res : App.FetchResult)
| RouteClick (routeId : string)
| MapClick
| ClosePanel
| MenuNavigation (view : InfoPanelView)
| PaidRoutesRead.

(** One event, with the date and the cookie as they are when it is
    handled. *)
Definition step (state : AppState)
    (occurrence : string * Cookies.Cookie * Event) : AppState :=
  let '(today, cookie, event) := occurrence in
  match event with
  | LocationFix location => onLocation today cookie location state
  | RoutesFetched res => onRoutesFetched today cookie res state
  | RouteClick routeId => handleRouteClick routeId state
  | MapClick => handleMapClick state
  | ClosePanel => handleClosePanel state
  | MenuNavigation view => handleMenuNavigation view state
  | PaidRoutesRead => refreshPaidRouteIds cookie state
  end.

Definition run (occurrences : list (string * Cookies.Cookie * Event))
    (state : AppState) : AppState :=
  fold_left step occurrences state.

(** When the panel carries a nearby route, it is the selected route of
    the route-detail view, within the threshold, and requires payment. *)
Definition nearbyRouteConsistent (panel : InfoPanelState) : Prop :=
  match panel.(nearbyRoute) with
  | None => True
  | Some nearby =>
      panel.(selectedRoute) = Some nearby.(route) /\
      panel.(view) = route_detail /\
      (nearby.(distance) <=? App.PROXIMITY_THRESHOLD) = true /\
      nearby.(route).(properties).(requiresPayment) = true
  end.

End WithMath.

End AppEvents.

(** ** [src/components/InfoPanel.tsx]: the trail marker line *)

Module TrailMarker.
Import Stdlib.Strings.Ascii.

Local Open Scope string_scope.

(** [s.split(sep)] for a one-character separator: the pieces between the
    separators, at least one piece. *)
Fixpoint split (sep : Ascii.ascii) (s : string) : list string :=
  match s with
  | EmptyString => [EmptyString]
  | String c rest =>
      if Ascii.eqb c sep then EmptyString :: split sep rest
      else match split sep rest with
           | piece :: pieces => String c piece :: pieces
           | [] => [String c EmptyString]
           end
  end.

(** The trail-marker row of the route-detail view.  The row is rendered
    only under the guard [props['osmc:symbol'] &&], that is when the symbol
    is set and not the empty string: [None] is no row.  Its text is
    [symbol.split(':').slice(3, 4)[0] || props.ref]: the fourth piece when
    there is one and it is not empty, [props.ref] (which may be missing)
    otherwise. *)
Definition trailMarker (symbol : option string) (ref : option string)
    : option (option string) :=
  match symbol with
  | Some (String c rest) =>
      Some
        match nth_error (split ":"%char (String c rest)) 3 with
        | Some (String d piece) => Some (String d piece)
        | _ => ref
        end
  | _ => None
  end.

(** Whether a character occurs in a string. *)
Fixpoint occurs (c : Ascii.ascii) (s : string) : bool :=
  match s with
  | EmptyString => false
  | String d rest => Ascii.eqb d c || occurs c rest
  end.

End TrailMarker.

(** ** A host with correctly rounded values *)

Module RoundedHost.

(** [Math.sin] and [Math.cos] at the arguments that the distance from
    (latitude 2.5, longitude 90) to (latitude -2.5, longitude -90) puts to
    them, with the binary64 values nearest to the true sine and cosine
    there; the small-angle stand-in elsewhere.  [Math.atan2] is NaN when
    an argument is. *)
Definition roundedMath : JsMath := {|
  Math_sin := fun x =>
    if x =? -0x1.657184ae74487p-5 then -0x1.65547c4694e11p-5
    else if x =? -0x1.921fb54442d18p+0 then -1
    else x;
  Math_cos := fun x =>
    if abs x =? 0x1.657184ae74487p-5 then 0x1.ff833f9da45f7p-1
    else 1;
  Math_atan2 := fun y x =>
    if is_nan y || is_nan x then nan else y / x
|}.

End RoundedHost.

(** * Properties *)

(** ** The paid-route ledger *)

Module CookiesFacts.
Import Types Cookies.

Local Open Scope nat_scope.
Local Open Scope string_scope.

Lemma filter_other_id (routeId other : string) (l : list PaidRoute) :
  (other =? routeId) = false ->
  filter (fun route => route.(Types.routeId) =? routeId)
    (filter (fun route => negb (route.(Types.routeId) =? other)) l) =
  filter (fun route => route.(Types.routeId) =? routeId) l.
Proof.
  intros Hne. induction l as [|m l IH]; simpl; [reflexivity|].
  destruct (String.eqb_spec m.(Types.routeId) other) as [Ho|Ho]; simpl.
  - rewrite Ho, Hne. exact IH.
  - destruct (m.(Types.routeId) =? routeId); simpl; now rewrite IH.
Qed.

Lemma filter_same_id (routeId : string) (l : list PaidRoute) :
  filter (fun route => route.(Types.routeId) =? routeId)
    (filter (fun route => negb (route.(Types.routeId) =? routeId)) l) = [].
Proof.
  induction l as [|m l IH]; simpl; [reflexivity|].
  destruct (m.(Types.routeId) =? routeId) eqn:E; simpl; [exact IH|].
  rewrite E. exact IH.
Qed.

Lemma marksFor_markRoutePaid (today : string) (cookie : Cookie)
    (marked routeId : string) :
  marksFor routeId (markRoutePaid today cookie marked) =
  if marked =? routeId then 1 else marksFor routeId cookie.
Proof.
  unfold marksFor, markRoutePaid; simpl.
  rewrite filter_app, length_app; simpl.
  destruct (String.eqb_spec marked routeId) as [->|Hne]; simpl.
  - rewrite filter_same_id. reflexivity.
  - rewrite filter_other_id by (now apply String.eqb_neq).
    apply Nat.add_0_r.
Qed.

Lemma marksFor_unmarkRoutePaid (cookie : Cookie) (unmarked routeId : string) :
  marksFor routeId (unmarkRoutePaid cookie unmarked) =
  if unmarked =? routeId then 0 else marksFor routeId cookie.
Proof.
  unfold marksFor, unmarkRoutePaid; simpl.
  destruct (String.eqb_spec unmarked routeId) as [->|Hne].
  - now rewrite filter_same_id.
  - now rewrite filter_other_id by (now apply String.eqb_neq).
Qed.

Lemma oneMarkPerRoute_applyOp (cookie : Cookie) (op : LedgerOp) :
  oneMarkPerRoute cookie -> oneMarkPerRoute (applyOp cookie op).
Proof.
  intros Hinv r. destruct op as [marked today|unmarked|]; simpl.
  - rewrite marksFor_markRoutePaid. destruct (marked =? r); [lia|apply Hinv].
  - rewrite marksFor_unmarkRoutePaid. destruct (unmarked =? r); [lia|apply Hinv].
  - unfold marksFor; simpl. lia.
Qed.

Lemma oneMarkPerRoute_applyOps (ops : list LedgerOp) (cookie : Cookie) :
  oneMarkPerRoute cookie -> oneMarkPerRoute (applyOps cookie ops).
Proof.
  revert cookie. induction ops as [|op ops IH]; intros cookie Hinv.
  - exact Hinv.
  - apply (IH (applyOp cookie op)). now apply oneMarkPerRoute_applyOp.
Qed.

Lemma oneMarkPerRoute_Absent : oneMarkPerRoute Absent.
Proof. intros r. unfold marksFor; simpl. lia. Qed.

Lemma oneMarkPerRoute_singleton (mark : PaidRoute) :
  oneMarkPerRoute (Stored [mark]).
Proof.
  intros r. unfold marksFor. cbn [getPaidRoutes filter].
  destruct (mark.(Types.routeId) =? r); simpl; lia.
Qed.

Lemma isRoutePaid_spec (today : string) (cookie : Cookie) (routeId : string) :
  isRoutePaid today cookie routeId = true <->
  exists mark,
    In mark (getPaidRoutes cookie) /\
    mark.(Types.routeId) = routeId /\ mark.(paidDate) = today.
Proof.
  unfold isRoutePaid. rewrite existsb_exists. split.
  - intros [m [Hin Hm]]. apply andb_true_iff in Hm as [Hr Hd].
    exists m. repeat split; [exact Hin| |]; now apply String.eqb_eq.
  - intros [m [Hin [Hr Hd]]]. exists m. split; [exact Hin|].
    apply andb_true_iff. split; now apply String.eqb_eq.
Qed.

(** A route just marked reads as paid under the date of the mark. *)
Lemma isRoutePaid_markRoutePaid (today : string) (cookie : Cookie)
    (routeId : string) :
  isRoutePaid today (markRoutePaid today cookie routeId) routeId = true.
Proof.
  apply isRoutePaid_spec.
  exists {| routeId := routeId; paidDate := today |}.
  repeat split. simpl. apply in_or_app. right. left. reflexivity.
Qed.

(** With at most one mark per route, two stored marks of one route are
    the same mark. *)
Lemma oneMark_unique (l : list PaidRoute) (m1 m2 : PaidRoute) :
  List.length (filter (fun route => route.(Types.routeId) =? m1.(Types.routeId)) l) <= 1 ->
  In m1 l -> In m2 l -> m2.(Types.routeId) = m1.(Types.routeId) -> m1 = m2.
Proof.
  induction l as [|m l IH]; simpl; intros Hlen H1 H2 Hid; [contradiction|].
  assert (Hfilter : forall x, In x l -> x.(Types.routeId) = m1.(Types.routeId) ->
            1 <= List.length (filter (fun route => route.(Types.routeId) =? m1.(Types.routeId)) l)).
  { intros x Hx Hxid.
    assert (Hin : In x (filter (fun route => route.(Types.routeId) =? m1.(Types.routeId)) l)).
    { apply filter_In. split; [exact Hx|]. now apply String.eqb_eq. }
    destruct (filter _ l); [contradiction|simpl; lia]. }
  destruct (String.eqb_spec m.(Types.routeId) m1.(Types.routeId)) as [E|E];
    simpl in Hlen.
  - destruct H1 as [<-|H1], H2 as [<-|H2]; try reflexivity.
    + specialize (Hfilter m2 H2 Hid). lia.
    + specialize (Hfilter m1 H1 eq_refl). lia.
    + specialize (Hfilter m1 H1 eq_refl). lia.
  - destruct H1 as [<-|H1]; [congruence|].
    destruct H2 as [<-|H2]; [congruence|].
    now apply IH.
Qed.

(** C3: [isRoutePaid] answers true exactly when a stored mark carries the
    route id and today's date; a mark written on one date is unpaid under
    any other date, and in a ledger with at most one mark per route every
    stored mark reads as unpaid under every date but its own. *)
Theorem isRoutePaid_by_calendar_date :
  (forall today cookie routeId,
     isRoutePaid today cookie routeId = true <->
     exists mark,
       In mark (getPaidRoutes cookie) /\
       mark.(Types.routeId) = routeId /\ mark.(paidDate) = today) /\
  (forall cookie routeId D1 D2,
     D2 <> D1 ->
     isRoutePaid D2 (markRoutePaid D1 cookie routeId) routeId = false) /\
  (forall cookie mark D2,
     oneMarkPerRoute cookie ->
     In mark (getPaidRoutes cookie) ->
     D2 <> mark.(paidDate) ->
     isRoutePaid D2 cookie mark.(Types.routeId) = false).
Proof.
  split; [exact isRoutePaid_spec|]. split.
  - intros cookie r D1 D2 Hne.
    destruct (isRoutePaid D2 (markRoutePaid D1 cookie r) r) eqn:E; [|reflexivity].
    apply isRoutePaid_spec in E as [m [Hin [Hr Hd]]]. simpl in Hin.
    apply in_app_or in Hin as [Hin|[<-|[]]].
    + apply filter_In in Hin as [_ Hf]. rewrite Hr, String.eqb_refl in Hf.
      discriminate.
    + simpl in Hd. congruence.
  - intros cookie mark D2 Hone Hin Hne.
    destruct (isRoutePaid D2 cookie mark.(Types.routeId)) eqn:E; [|reflexivity].
    apply isRoutePaid_spec in E as [m [Hin' [Hr Hd]]].
    assert (mark = m) by (apply (oneMark_unique (getPaidRoutes cookie));
                          [apply Hone|assumption..]).
    subst m. congruence.
Qed.

Lemma isRoutePaid_by_calendar_date_witness :
  isRoutePaid "2024-05-02" (markRoutePaid "2024-05-01" Absent "PR8") "PR8" = false /\
  isRoutePaid "2024-05-02"
    (Stored [{| routeId := "PR8"; paidDate := "2024-05-01" |}]) "PR8" = false.
Proof.
  split.
  - apply (proj1 (proj2 isRoutePaid_by_calendar_date)). discriminate.
  - apply (proj2 (proj2 isRoutePaid_by_calendar_date)
             (Stored [{| routeId := "PR8"; paidDate := "2024-05-01" |}])
             {| routeId := "PR8"; paidDate := "2024-05-01" |}).
    + apply oneMarkPerRoute_singleton.
    + simpl. left. reflexivity.
    + discriminate.
Defined.

(** C5: every run of mark, unmark and clear operations, started from a
    ledger with at most one mark per route (the empty one in particular),
    ends in such a ledger; and marking a route leaves exactly one mark for
    it, dated today, whatever was stored for it before. *)
Theorem ledger_one_mark_per_route :
  (forall ops cookie,
     oneMarkPerRoute cookie -> oneMarkPerRoute (applyOps cookie ops)) /\
  (forall ops, oneMarkPerRoute (applyOps Absent ops)) /\
  (forall today cookie routeId,
     marksFor routeId (markRoutePaid today cookie routeId) = 1 /\
     forall mark,
       In mark (getPaidRoutes (markRoutePaid today cookie routeId)) ->
       mark.(Types.routeId) = routeId ->
       mark.(paidDate) = today).
Proof.
  split; [exact oneMarkPerRoute_applyOps|]. split.
  - intros ops. apply oneMarkPerRoute_applyOps, oneMarkPerRoute_Absent.
  - intros today cookie r. split.
    + rewrite marksFor_markRoutePaid, String.eqb_refl. reflexivity.
    + intros m Hin Hr. simpl in Hin.
      apply in_app_or in Hin as [Hin|[<-|[]]]; [|reflexivity].
      apply filter_In in Hin as [_ Hf]. rewrite Hr, String.eqb_refl in Hf.
      discriminate.
Qed.

Lemma ledger_one_mark_per_route_witness :
  oneMarkPerRoute
    (applyOps (Stored [{| routeId := "PR8"; paidDate := "2024-05-01" |}])
       [MarkPaid "PR8" "2024-05-02"; MarkPaid "PR6" "2024-05-02";
        UnmarkPaid "PR6"; MarkPaid "PR8" "2024-05-03"]) /\
  paidDate {| routeId := "PR8"; paidDate := "2024-05-02" |} = "2024-05-02".
Proof.
  split.
  - apply (proj1 ledger_one_mark_per_route).
    apply oneMarkPerRoute_singleton.
  - apply (proj2 (proj2 (proj2 ledger_one_mark_per_route) "2024-05-02"
                    (Stored [{| routeId := "PR8"; paidDate := "2024-05-01" |}])
                    "PR8")).
    + simpl. left. reflexivity.
    + reflexivity.
Defined.

(** C6: after [unmarkRoutePaid] no mark of the route is left, whatever its
    date, so the route reads as unpaid under every date and is gone from
    the refreshed [paidRouteIds]; when the route had no mark the stored
    marks are the same as before. *)
Theorem unmarkRoutePaid_removes_mark (cookie : Cookie) (routeId : string) :
  marksFor routeId (unmarkRoutePaid cookie routeId) = 0 /\
  (forall today, isRoutePaid today (unmarkRoutePaid cookie routeId) routeId = false) /\
  ~ In routeId (snd (App.handleUnmarkPaid cookie routeId)) /\
  (marksFor routeId cookie = 0 ->
   getPaidRoutes (unmarkRoutePaid cookie routeId) = getPaidRoutes cookie).
Proof.
  assert (Hgone : forall m, In m (getPaidRoutes (unmarkRoutePaid cookie routeId)) ->
                            m.(Types.routeId) <> routeId).
  { intros m Hin Hr. simpl in Hin. apply filter_In in Hin as [_ Hf].
    rewrite Hr, String.eqb_refl in Hf. discriminate. }
  split; [|split; [|split]].
  - rewrite marksFor_unmarkRoutePaid, String.eqb_refl. reflexivity.
  - intros today.
    destruct (isRoutePaid today (unmarkRoutePaid cookie routeId) routeId) eqn:E;
      [|reflexivity].
    apply isRoutePaid_spec in E as [m [Hin [Hr _]]]. now elim (Hgone m).
  - unfold App.handleUnmarkPaid; simpl. intros Hin.
    apply in_map_iff in Hin as [m [Hr Hin]]. now elim (Hgone m).
  - unfold marksFor, unmarkRoutePaid; simpl.
    induction (getPaidRoutes cookie) as [|m l IH]; simpl; [reflexivity|].
    destruct (m.(Types.routeId) =? routeId); simpl; [discriminate|].
    intros H. now rewrite IH.
Qed.

Lemma unmarkRoutePaid_removes_mark_witness :
  getPaidRoutes
    (unmarkRoutePaid
       (Stored [{| routeId := "PR6"; paidDate := "2024-05-01" |}]) "PR8") =
  [{| routeId := "PR6"; paidDate := "2024-05-01" |}].
Proof.
  apply (proj2 (proj2 (proj2
           (unmarkRoutePaid_removes_mark
              (Stored [{| routeId := "PR6"; paidDate := "2024-05-01" |}]) "PR8")))).
  reflexivity.
Defined.

(** C10: [markRoutePaid] rewrites one route's entry only: the marks of all
    other routes are the ones stored before, in the same order, followed by
    the new mark. *)
Theorem markRoutePaid_frame (today : string) (cookie : Cookie) (routeId : string) :
  filter (fun route => negb (route.(Types.routeId) =? routeId))
    (getPaidRoutes (markRoutePaid today cookie routeId)) =
  filter (fun route => negb (route.(Types.routeId) =? routeId))
    (getPaidRoutes cookie) /\
  getPaidRoutes (markRoutePaid today cookie routeId) =
  (filter (fun route => negb (route.(Types.routeId) =? routeId))
     (getPaidRoutes cookie) ++
   [{| routeId := routeId; paidDate := today |}])%list.
Proof.
  split; [|reflexivity].
  simpl. rewrite filter_app. simpl. rewrite String.eqb_refl. simpl.
  rewrite app_nil_r.
  induction (getPaidRoutes cookie) as [|m l IH]; simpl; [reflexivity|].
  destruct (m.(Types.routeId) =? routeId) eqn:E; simpl; [exact IH|].
  rewrite E. simpl. now rewrite IH.
Qed.

End CookiesFacts.

(** ** Order and zero on binary64 numbers *)

Module FloatFacts.

Ltac sf_compare_cases :=
  repeat match goal with
  | H : context [Z.compare ?a ?b] |- _ =>
      destruct (Z.compare_spec a b); simpl in H
  | |- context [Z.compare ?a ?b] =>
      destruct (Z.compare_spec a b); simpl
  | H : context [Pos.compare_cont Eq ?a ?b] |- _ =>
      change (Pos.compare_cont Eq a b) with (Pos.compare a b) in H;
      destruct (Pos.compare_spec a b); simpl in H
  | |- context [Pos.compare_cont Eq ?a ?b] =>
      change (Pos.compare_cont Eq a b) with (Pos.compare a b);
      destruct (Pos.compare_spec a b); simpl
  end.

Ltac sf_destruct3 x y z :=
  destruct x as [[]|[]| |[] ? ?], y as [[]|[]| |[] ? ?], z as [[]|[]| |[] ? ?].

Lemma SFcompare_Lt_trans x y z :
  SFcompare x y = Some Lt -> SFcompare y z = Some Lt ->
  SFcompare x z = Some Lt.
Proof.
  sf_destruct3 x y z; simpl; intros Hxy Hyz;
    try discriminate; try reflexivity;
    sf_compare_cases; try discriminate; try reflexivity; subst; try lia.
Qed.

Lemma SFcompare_Eq_Lt_trans x y z :
  SFcompare x y = Some Eq -> SFcompare y z = Some Lt ->
  SFcompare x z = Some Lt.
Proof.
  sf_destruct3 x y z; simpl; intros Hxy Hyz;
    try discriminate; try reflexivity;
    sf_compare_cases; try discriminate; try reflexivity; subst; try lia.
Qed.

Lemma SFcompare_refl x : x <> S754_nan -> SFcompare x x = Some Eq.
Proof.
  destruct x as [[]|[]| |[] mx ex]; simpl; intros Hx;
    try reflexivity; try congruence;
    rewrite Z.compare_refl;
    change (Pos.compare_cont Eq mx mx) with (Pos.compare mx mx);
    now rewrite Pos.compare_refl.
Qed.

Lemma ltb_true_iff x y :
  (x <? y) = true <-> SFcompare (Prim2SF x) (Prim2SF y) = Some Lt.
Proof.
  rewrite ltb_spec. unfold SFltb.
  destruct (SFcompare (Prim2SF x) (Prim2SF y)) as [[]|]; split; congruence.
Qed.

Lemma leb_true_iff x y :
  (x <=? y) = true <->
  SFcompare (Prim2SF x) (Prim2SF y) = Some Lt \/
  SFcompare (Prim2SF x) (Prim2SF y) = Some Eq.
Proof.
  rewrite leb_spec. unfold SFleb.
  destruct (SFcompare (Prim2SF x) (Prim2SF y)) as [[]|];
    split; intros H; try tauto; try congruence; destruct H; congruence.
Qed.

Lemma ltb_trans x y z :
  (x <? y) = true -> (y <? z) = true -> (x <? z) = true.
Proof. rewrite !ltb_true_iff. apply SFcompare_Lt_trans. Qed.

Lemma leb_ltb_trans x y z :
  (x <=? y) = true -> (y <? z) = true -> (x <? z) = true.
Proof.
  rewrite leb_true_iff, !ltb_true_iff. intros [H|H].
  - now apply SFcompare_Lt_trans.
  - now apply SFcompare_Eq_Lt_trans.
Qed.

Lemma ltb_irrefl x : (x <? x) = false.
Proof.
  destruct (x <? x) eqn:E; [|reflexivity].
  apply ltb_true_iff in E.
  destruct (Prim2SF x) as [[]|[]| |[] mx ex] eqn:Ex; simpl in E;
    try discriminate;
    rewrite Z.compare_refl in E;
    change (Pos.compare_cont Eq mx mx) with (Pos.compare mx mx) in E;
    rewrite Pos.compare_refl in E; discriminate.
Qed.

Lemma Prim2SF_infinity : Prim2SF infinity = S754_infinity false.
Proof. reflexivity. Qed.

Lemma ltb_below_infinity x m : (x <? m) = true -> (x <? infinity) = true.
Proof.
  rewrite !ltb_true_iff, Prim2SF_infinity.
  destruct (Prim2SF x) as [[]|[]| |[] mx ex],
           (Prim2SF m) as [[]|[]| |[] my ey];
    simpl; intros H; try discriminate; reflexivity.
Qed.

Lemma infinity_ltb m : (infinity <? m) = false.
Proof.
  rewrite ltb_spec, Prim2SF_infinity. unfold SFltb.
  destruct (Prim2SF m) as [[]|[]| |[] my ey]; reflexivity.
Qed.

(** [x == 0] leaves the two zeros. *)
Lemma is_zero_inv x : (x =? 0) = true -> x = 0 \/ x = -0.
Proof.
  rewrite eqb_spec. change (Prim2SF 0) with (S754_zero false).
  unfold SFeqb. intros H. rewrite <- (SF2Prim_Prim2SF x).
  destruct (Prim2SF x) as [[]|[]| |[] mx ex]; simpl in H; try discriminate.
  - right. reflexivity.
  - left. reflexivity.
Qed.

(** There is one NaN. *)
Lemma is_nan_inv x : is_nan x = true -> x = nan.
Proof.
  unfold is_nan. rewrite eqb_spec. unfold SFeqb. intros H.
  rewrite <- (SF2Prim_Prim2SF x).
  destruct (Prim2SF x) as [[]|[]| |[] mx ex] eqn:Ex; try reflexivity;
    rewrite SFcompare_refl in H by discriminate; discriminate.
Qed.

(** A finite number is a zero or has a mantissa. *)
Lemma is_finite_inv x :
  is_finite x = true ->
  (exists s, Prim2SF x = S754_zero s) \/
  (exists s m e, Prim2SF x = S754_finite s m e).
Proof.
  unfold is_finite, is_nan, is_infinity.
  rewrite !eqb_spec, abs_spec, Prim2SF_infinity. unfold SFeqb.
  destruct (Prim2SF x) as [s|s| |s mx ex] eqn:Ex; simpl; intros H.
  - left. now exists s.
  - destruct s; discriminate.
  - discriminate.
  - right. now exists s, mx, ex.
Qed.

(** Two equal finite numbers differ by a zero. *)
Lemma sub_equal_finite x2 x1 :
  (x2 =? x1) = true -> is_finite x1 = true -> (x2 - x1 =? 0) = true.
Proof.
  intros Heq Hfin. rewrite eqb_spec in Heq. rewrite eqb_spec, sub_spec.
  change (Prim2SF 0) with (S754_zero false). unfold SFeqb in *.
  destruct (is_finite_inv x1 Hfin) as [[s1 E1]|[s1 [m1 [e1 E1]]]];
    rewrite E1 in *;
    destruct (Prim2SF x2) as [s2|s2| |s2 m2 e2]; simpl in Heq;
    try discriminate; try (destruct s2; discriminate).
  - destruct s1, s2; reflexivity.
  - destruct s1; discriminate.
  - assert (s2 = s1 /\ e2 = e1 /\ m2 = m1) as [-> [-> ->]].
    { destruct s1, s2; try discriminate; sf_compare_cases;
        try discriminate; subst; auto. }
    unfold SF64sub, SFsub. rewrite Z.sub_diag. reflexivity.
Qed.

Lemma Math_min_infinity_l d : Math_min infinity d = d.
Proof.
  unfold Math_min. change (is_nan infinity) with false. simpl.
  destruct (is_nan d) eqn:En; [symmetry; now apply is_nan_inv|].
  rewrite infinity_ltb.
  destruct (d <? infinity); [reflexivity|].
  change (is_zero infinity) with false. reflexivity.
Qed.

End FloatFacts.

(** ** Point-to-segment and point-to-geometry distance *)

Module DistanceFacts.
Import Distance FloatFacts.

Lemma lenSq_zero (C D : float) :
  (C =? 0) = true -> (D =? 0) = true -> (C * C + D * D =? 0) = true.
Proof.
  intros HC HD.
  destruct (is_zero_inv C HC) as [->| ->], (is_zero_inv D HD) as [->| ->];
    reflexivity.
Qed.

Section WithMath.
Context {M : JsMath}.

Lemma segmentParam_zero_length (px py x1 y1 x2 y2 : float) :
  (x2 - x1 =? 0) = true -> (y2 - y1 =? 0) = true ->
  segmentParam px py x1 y1 x2 y2 = -1.
Proof.
  intros HC HD. unfold segmentParam. cbv zeta.
  now rewrite (lenSq_zero _ _ HC HD).
Qed.

Lemma segmentFoot_zero_length (px py x1 y1 x2 y2 : float) :
  (x2 - x1 =? 0) = true -> (y2 - y1 =? 0) = true ->
  segmentFoot px py x1 y1 x2 y2 = (x1, y1).
Proof.
  intros HC HD. unfold segmentFoot. cbv zeta.
  rewrite (segmentParam_zero_length px py x1 y1 x2 y2 HC HD).
  reflexivity.
Qed.

(** C9, as the code has it: on a segment of zero length ([C == 0] and
    [D == 0]) the guard keeps the division from running, [param] stays
    [-1], and the distance is the point-to-point distance to the first
    endpoint, so it is NaN exactly when that distance is; the same holds
    for the line made of that one segment.  Two equal finite endpoints
    give such a segment. *)
Theorem distanceToSegment_zero_length (px py x1 y1 x2 y2 : float) :
  ((x2 - x1 =? 0) = true -> (y2 - y1 =? 0) = true ->
   segmentParam px py x1 y1 x2 y2 = -1 /\
   distanceToSegment px py x1 y1 x2 y2 = calculateDistance py px y1 x1 /\
   is_nan (distanceToSegment px py x1 y1 x2 y2) =
   is_nan (calculateDistance py px y1 x1) /\
   distanceToGeometry py px (LineString [(x1, y1); (x2, y2)]) =
   calculateDistance py px y1 x1) /\
  ((x2 =? x1) = true -> (y2 =? y1) = true ->
   is_finite x1 = true -> is_finite y1 = true ->
   (x2 - x1 =? 0) = true /\ (y2 - y1 =? 0) = true).
Proof.
  split.
  - intros HC HD.
    assert (Hseg : distanceToSegment px py x1 y1 x2 y2 =
                   calculateDistance py px y1 x1).
    { unfold distanceToSegment.
      now rewrite (segmentFoot_zero_length px py x1 y1 x2 y2 HC HD). }
    split; [now apply segmentParam_zero_length|].
    split; [exact Hseg|]. split; [now rewrite Hseg|].
    simpl. rewrite Math_min_infinity_l. exact Hseg.
  - intros Hx Hy Fx Fy. split; now apply sub_equal_finite.
Qed.

End WithMath.

Lemma distanceToSegment_zero_length_witness :
  ((1 - 1 =? 0) = true /\ (2 - 2 =? 0) = true) /\
  @distanceToSegment smallAngleMath 3 4 1 2 1 2 =
  @calculateDistance smallAngleMath 4 3 2 1.
Proof.
  split.
  - apply (proj2 (@distanceToSegment_zero_length smallAngleMath 3 4 1 2 1 2));
      reflexivity.
  - refine (proj1 (proj2
      (proj1 (@distanceToSegment_zero_length smallAngleMath 3 4 1 2 1 2) _ _)));
      reflexivity.
Defined.

(** The point (latitude 2.5, longitude 90) and the segment of zero length
    at (latitude -2.5, longitude -90), nearly antipodal: no division runs
    and [param] is [-1], yet the haversine term rounds to just above 1, the
    square root of [1 - a] is NaN, and so is the distance. *)
Lemma distanceToSegment_zero_length_nan :
  ((-90 =? -90) = true /\ (-2.5 =? -2.5) = true /\
   is_finite (-90) = true /\ is_finite (-2.5) = true) /\
  segmentParam 90 2.5 (-90) (-2.5) (-90) (-2.5) = -1 /\
  is_nan (@distanceToSegment RoundedHost.roundedMath
            90 2.5 (-90) (-2.5) (-90) (-2.5)) = true.
Proof. vm_compute. repeat split. Qed.

End DistanceFacts.

(** ** Route loading, nearest-route scan and proximity effect *)

Module AppFacts.
Import Types Distance App FloatFacts.

Section WithMath.
Context {M : JsMath}.

Lemma nearestSoFar_step (location : UserLocation) (seen : list RouteFeature)
    (acc : option NearbyRoute * float) (feature : RouteFeature) :
  nearestSoFar location seen acc ->
  nearestSoFar location (seen ++ [feature]) (scanStep location acc feature).
Proof.
  destruct acc as [closestRoute minDistance]. unfold scanStep.
  change (distanceToGeometry _ _ _) with (routeDistance location feature).
  intros [Hmin Hclosest].
  destruct (routeDistance location feature <? minDistance) eqn:E.
  - split.
    + intros g Hg. apply in_app_or in Hg as [Hg|[<-|[]]].
      * destruct (routeDistance location g <? routeDistance location feature)
          eqn:Eg; [|reflexivity].
        rewrite <- (Hmin g Hg). symmetry. exact (ltb_trans _ _ _ Eg E).
      * apply ltb_irrefl.
    + simpl. repeat split; try reflexivity.
      * exact (ltb_below_infinity _ _ E).
      * exists seen, []. split; [reflexivity|]. intros g Hg.
        destruct (routeDistance location g <=? routeDistance location feature)
          eqn:Eg; [|reflexivity].
        rewrite <- (Hmin g Hg). symmetry. exact (leb_ltb_trans _ _ _ Eg E).
  - split.
    + intros g Hg. apply in_app_or in Hg as [Hg|[<-|[]]];
        [now apply Hmin|exact E].
    + destruct closestRoute as [closest|]; [|exact Hclosest].
      destruct Hclosest as [Hd [Hr [Hinf [before [after [Hseen Hbefore]]]]]].
      repeat split; try assumption.
      exists before, (after ++ [feature]). split; [|exact Hbefore].
      rewrite Hseen, <- app_assoc. reflexivity.
Qed.

Lemma nearestSoFar_fold (location : UserLocation) (rest : list RouteFeature) :
  forall seen acc,
    nearestSoFar location seen acc ->
    nearestSoFar location (seen ++ rest)
      (fold_left (scanStep location) rest acc).
Proof.
  induction rest as [|feature rest IH]; intros seen acc Hacc; simpl.
  - now rewrite app_nil_r.
  - replace (seen ++ feature :: rest) with ((seen ++ [feature]) ++ rest)
      by (now rewrite <- app_assoc).
    apply IH. now apply nearestSoFar_step.
Qed.

Lemma nearestSoFar_closestRouteScan (location : UserLocation)
    (features : list RouteFeature) :
  nearestSoFar location features (closestRouteScan location features).
Proof.
  apply (nearestSoFar_fold location features [] (None, infinity)).
  split; [intros g []|reflexivity].
Qed.

Lemma scanStep_unhandled (location : UserLocation)
    (acc : option NearbyRoute * float) (feature : RouteFeature) :
  handledVariant feature.(geometry) = false ->
  scanStep location acc feature = acc.
Proof.
  intros Hg. destruct acc as [closestRoute minDistance]. unfold scanStep.
  replace (distanceToGeometry _ _ feature.(geometry)) with infinity
    by (destruct feature.(geometry) as [[]| | | | | |];
        solve [discriminate Hg|reflexivity]).
  now rewrite infinity_ltb.
Qed.

(** C4, as the code has it: over an empty catalogue the scan returns
    [(null, Infinity)]; it also returns that when no feature lies below
    [Infinity]; otherwise it returns a feature of the catalogue with its own
    distance, below [Infinity], such that no feature is strictly nearer and
    every feature before it in the catalogue is strictly farther or at no
    comparable distance: the first of the nearest. *)
Theorem closestRouteScan_first_nearest (location : UserLocation)
    (features : list RouteFeature) :
  closestRouteScan location [] = (None, infinity) /\
  match closestRouteScan location features with
  | (Some closest, minDistance) =>
      closest.(distance) = minDistance /\
      routeDistance location closest.(route) = minDistance /\
      (minDistance <? infinity) = true /\
      (forall g, In g features ->
                 (routeDistance location g <? minDistance) = false) /\
      exists before after,
        features = before ++ closest.(route) :: after /\
        forall g, In g before ->
                  (routeDistance location g <=? minDistance) = false
  | (None, minDistance) =>
      minDistance = infinity /\
      forall g, In g features ->
                (routeDistance location g <? infinity) = false
  end.
Proof.
  split; [reflexivity|].
  pose proof (nearestSoFar_closestRouteScan location features) as H.
  destruct (closestRouteScan location features) as [[closest|] minDistance];
    simpl in H.
  - destruct H as [Hmin [Hd [Hr [Hinf Hfirst]]]]. auto.
  - destruct H as [Hmin ->]. auto.
Qed.

(** C8: for a point geometry [distanceToGeometry] is the point-to-point
    distance; for every variant other than Point, LineString and
    MultiLineString it is [Infinity]; and a feature of such a variant,
    anywhere in the catalogue, leaves the nearest-route scan with the result
    it has without that feature. *)
Theorem distanceToGeometry_point_and_unhandled (latitude longitude : float) :
  (forall lon lat,
     distanceToGeometry latitude longitude (Point (lon, lat)) =
     calculateDistance latitude longitude lat lon) /\
  (forall geometry,
     handledVariant geometry = false ->
     distanceToGeometry latitude longitude geometry = infinity) /\
  (forall location before feature after,
     handledVariant feature.(Types.geometry) = false ->
     closestRouteScan location (before ++ feature :: after) =
     closestRouteScan location (before ++ after)).
Proof.
  split; [reflexivity|]. split.
  - intros geometry Hg.
    destruct geometry as [[]| | | | | |]; solve [discriminate Hg|reflexivity].
  - intros location before feature after Hg. unfold closestRouteScan.
    rewrite !fold_left_app. simpl.
    now rewrite (scanStep_unhandled location _ feature Hg).
Qed.

(** C1: when the scan's nearest route is within [PROXIMITY_THRESHOLD],
    requires payment and is not paid for today, the effect opens the panel
    on that route's detail view with the route as nearby route, the view
    renders the warning, and the action is show-warning. *)
Theorem proximity_warns_on_unpaid_route
    (today : string) (cookie : Cookies.Cookie)
    (location : UserLocation) (collection : RouteCollection)
    (closest : NearbyRoute) (minDistance : float)
    (infoPanelState : InfoPanelState) :
  closestRouteScan location collection.(features) = (Some closest, minDistance) ->
  (closest.(distance) <=? PROXIMITY_THRESHOLD) = true ->
  closest.(route).(properties).(requiresPayment) = true ->
  Cookies.isRoutePaid today cookie closest.(route).(properties).(id) = false ->
  proximityEffect today cookie (Some location) (Some collection) infoPanelState =
    {| isOpen := true;
       view := route_detail;
       selectedRoute := Some closest.(route);
       nearbyRoute := Some closest |} /\
  InfoPanel.renderContent today cookie
    (proximityEffect today cookie (Some location) (Some collection) infoPanelState) =
    [InfoPanel.warning_message] /\
  proximityAction today cookie (Some location) (Some collection) = show_warning.
Proof.
  intros Hscan Hnear Hpay Hunpaid.
  assert (Hupd : proximityUpdate today cookie (Some location) (Some collection) =
                 Some {| isOpen := true;
                         view := route_detail;
                         selectedRoute := Some closest.(route);
                         nearbyRoute := Some closest |}).
  { unfold proximityUpdate. now rewrite Hscan, Hnear, Hpay, Hunpaid. }
  assert (Hrender : InfoPanel.renderContent today cookie
                      {| isOpen := true;
                         view := route_detail;
                         selectedRoute := Some closest.(route);
                         nearbyRoute := Some closest |} =
                    [InfoPanel.warning_message]).
  { unfold InfoPanel.renderContent, InfoPanel.renderRouteDetail. simpl.
    rewrite Hunpaid. unfold PROXIMITY_THRESHOLD in Hnear. now rewrite Hnear. }
  unfold proximityEffect, proximityAction. rewrite Hupd, Hrender.
  repeat split.
Qed.

(** C2, evaluated on the code: when the scan's nearest route is within
    [PROXIMITY_THRESHOLD] and is free or already paid for today, the effect
    makes no call to [setInfoPanelState]: the panel keeps the state it had
    and the action is none, where the claim asks for show-info. *)
Theorem proximity_silent_on_free_or_paid_route
    (today : string) (cookie : Cookies.Cookie)
    (location : UserLocation) (collection : RouteCollection)
    (closest : NearbyRoute) (minDistance : float)
    (infoPanelState : InfoPanelState) :
  closestRouteScan location collection.(features) = (Some closest, minDistance) ->
  (closest.(distance) <=? PROXIMITY_THRESHOLD) = true ->
  closest.(route).(properties).(requiresPayment) = false \/
  Cookies.isRoutePaid today cookie closest.(route).(properties).(id) = true ->
  proximityUpdate today cookie (Some location) (Some collection) = None /\
  proximityEffect today cookie (Some location) (Some collection) infoPanelState =
    infoPanelState /\
  proximityAction today cookie (Some location) (Some collection) = action_none.
Proof.
  intros Hscan Hnear Hfree.
  assert (Hupd : proximityUpdate today cookie (Some location) (Some collection) =
                 None).
  { unfold proximityUpdate. rewrite Hscan, Hnear.
    destruct Hfree as [-> | ->]; [reflexivity|].
    now rewrite andb_false_r. }
  unfold proximityEffect, proximityAction. rewrite Hupd. repeat split.
Qed.

End WithMath.

Lemma closestRouteScan_first_nearest_witness :
  In Scenario.lagoon [Scenario.lagoon; Scenario.pr8] /\
  (@routeDistance smallAngleMath Scenario.fixOnPr8 Scenario.lagoon <? 0) = false.
Proof.
  split; [left; reflexivity|].
  exact (proj1 (proj2 (proj2 (proj2 (proj2
           (@closestRouteScan_first_nearest smallAngleMath
              Scenario.fixOnPr8 [Scenario.lagoon; Scenario.pr8])))))
           Scenario.lagoon (or_introl eq_refl)).
Defined.

(** A catalogue of one polygon is not empty, yet the scan returns no
    route for it. *)
Lemma closestRouteScan_polygon_only :
  @closestRouteScan smallAngleMath Scenario.fixOnPr8 [Scenario.lagoon] =
    (None, infinity) /\
  @routeDistance smallAngleMath Scenario.fixOnPr8 Scenario.lagoon = infinity.
Proof. split; reflexivity. Qed.

Lemma distanceToGeometry_point_and_unhandled_witness :
  @distanceToGeometry smallAngleMath 32.75 (-17)
    Scenario.lagoon.(Types.geometry) = infinity /\
  @closestRouteScan smallAngleMath Scenario.fixOnPr8
    ([Scenario.pr8] ++ Scenario.lagoon :: [Scenario.pr8]) =
  @closestRouteScan smallAngleMath Scenario.fixOnPr8
    ([Scenario.pr8] ++ [Scenario.pr8]).
Proof.
  split.
  - apply (proj1 (proj2 (@distanceToGeometry_point_and_unhandled
                           smallAngleMath 32.75 (-17)))).
    reflexivity.
  - apply (proj2 (proj2 (@distanceToGeometry_point_and_unhandled
                           smallAngleMath 32.75 (-17)))).
    reflexivity.
Defined.

Lemma proximity_warns_on_unpaid_route_witness :
  @proximityAction smallAngleMath "2024-05-01" Cookies.Absent
    (Some Scenario.fixOnPr8) (Some {| features := [Scenario.pr8] |}) =
  show_warning.
Proof.
  refine (proj2 (proj2
    (@proximity_warns_on_unpaid_route smallAngleMath
       "2024-05-01" Cookies.Absent Scenario.fixOnPr8
       {| features := [Scenario.pr8] |}
       {| route := Scenario.pr8; distance := 0 |} 0
       {| isOpen := false; view := main;
          selectedRoute := None; nearbyRoute := None |} _ _ _ _)));
    vm_compute; reflexivity.
Defined.

Lemma proximity_silent_on_free_or_paid_route_witness :
  @proximityAction smallAngleMath "2024-05-01"
    (Cookies.markRoutePaid "2024-05-01" Cookies.Absent "PR8")
    (Some Scenario.fixOnPr8) (Some {| features := [Scenario.pr8] |}) =
  action_none.
Proof.
  refine (proj2 (proj2
    (@proximity_silent_on_free_or_paid_route smallAngleMath
       "2024-05-01" (Cookies.markRoutePaid "2024-05-01" Cookies.Absent "PR8")
       Scenario.fixOnPr8
       {| features := [Scenario.pr8] |}
       {| route := Scenario.pr8; distance := 0 |} 0
       {| isOpen := false; view := main;
          selectedRoute := None; nearbyRoute := None |} _ _ _)));
    [vm_compute; reflexivity | vm_compute; reflexivity | right; vm_compute; reflexivity].
Defined.

(** A catalogue that repeats an id and carries a polygon is installed all
    the same. *)
Lemma loadRoutes_installs_bad_catalogue :
  hasDuplicateId Scenario.badCatalogue.(features) = true /\
  hasUnhandledGeometry Scenario.badCatalogue.(features) = true /\
  loadRoutes (Response true (Some Scenario.badCatalogue)) None =
    Some Scenario.badCatalogue.
Proof. repeat split. Qed.

(** C7, as the code has it: a response that is [ok] and parses installs
    its catalogue, whether or not the catalogue repeats an id or carries a
    geometry the distance code has no branch for; a rejected fetch, a
    response that is not [ok] and a body that does not parse leave the
    catalogue as it was. *)
Theorem loadRoutes_installs_unvalidated
    (data : RouteCollection) (routes : option RouteCollection) :
  loadRoutes (Response true (Some data)) routes = Some data /\
  loadRoutes Rejected routes = routes /\
  loadRoutes (Response false (Some data)) routes = routes /\
  (forall ok, loadRoutes (Response ok None) routes = routes).
Proof.
  repeat split. intros []; reflexivity.
Qed.

End AppFacts.

(** ** More order facts on binary64 numbers *)

Module FloatOrderFacts.
Import FloatFacts.

Lemma is_nan_false_iff x : is_nan x = false <-> Prim2SF x <> S754_nan.
Proof.
  unfold is_nan. rewrite eqb_spec. unfold SFeqb. split.
  - intros H E. rewrite E in H. discriminate.
  - intros H. now rewrite SFcompare_refl.
Qed.

Lemma SFcompare_defined x y :
  x <> S754_nan -> y <> S754_nan -> exists c, SFcompare x y = Some c.
Proof.
  destruct x as [[]|[]| |[] ? ?], y as [[]|[]| |[] ? ?]; simpl; intros;
    try congruence; eauto.
Qed.

Lemma SFcompare_antisym x y c :
  SFcompare x y = Some c -> SFcompare y x = Some (CompOpp c).
Proof.
  destruct x as [[]|[]| |[] mx ex], y as [[]|[]| |[] my ey]; simpl; intros H;
    try discriminate; injection H as <-; try reflexivity.
  all: rewrite (Z.compare_antisym ex ey);
    change (Pos.compare_cont Eq my mx) with (Pos.compare my mx);
    change (Pos.compare_cont Eq mx my) with (Pos.compare mx my);
    rewrite (Pos.compare_antisym mx my);
    destruct (Z.compare ex ey); simpl; try reflexivity;
    destruct (Pos.compare mx my); reflexivity.
Qed.

Lemma SFcompare_Eq_trans x y z :
  SFcompare x y = Some Eq -> SFcompare y z = Some Eq ->
  SFcompare x z = Some Eq.
Proof.
  sf_destruct3 x y z; simpl; intros Hxy Hyz;
    try discriminate; try reflexivity;
    sf_compare_cases; try discriminate; try reflexivity; subst; try lia.
Qed.

Lemma SFcompare_Lt_Eq_trans x y z :
  SFcompare x y = Some Lt -> SFcompare y z = Some Eq ->
  SFcompare x z = Some Lt.
Proof.
  sf_destruct3 x y z; simpl; intros Hxy Hyz;
    try discriminate; try reflexivity;
    sf_compare_cases; try discriminate; try reflexivity; subst; try lia.
Qed.

Lemma leb_trans x y z :
  (x <=? y) = true -> (y <=? z) = true -> (x <=? z) = true.
Proof.
  rewrite !leb_true_iff. intros [H1|H1] [H2|H2].
  - left. eapply SFcompare_Lt_trans; eauto.
  - left. eapply SFcompare_Lt_Eq_trans; eauto.
  - left. eapply SFcompare_Eq_Lt_trans; eauto.
  - right. eapply SFcompare_Eq_trans; eauto.
Qed.

Lemma leb_refl x : is_nan x = false -> (x <=? x) = true.
Proof.
  intros H. apply leb_true_iff. right. apply SFcompare_refl.
  now apply is_nan_false_iff.
Qed.

Lemma ltb_leb x y : (x <? y) = true -> (x <=? y) = true.
Proof. rewrite ltb_true_iff, leb_true_iff. auto. Qed.

Lemma leb_not_nan x y :
  (x <=? y) = true -> is_nan x = false /\ is_nan y = false.
Proof.
  rewrite leb_true_iff, !is_nan_false_iff.
  destruct (Prim2SF x) as [[]|[]| |[] ? ?], (Prim2SF y) as [[]|[]| |[] ? ?];
    simpl; intros [H|H]; try discriminate; split; discriminate.
Qed.

Lemma not_ltb_leb x y :
  is_nan x = false -> is_nan y = false ->
  (x <? y) = false -> (y <=? x) = true.
Proof.
  rewrite !is_nan_false_iff. intros Hx Hy Hlt.
  destruct (SFcompare_defined _ _ Hx Hy) as [c Hc].
  apply leb_true_iff. rewrite (SFcompare_antisym _ _ _ Hc).
  destruct c; simpl; auto.
  apply ltb_true_iff in Hc. congruence.
Qed.

(** A comparison with NaN on the left is false. *)
Lemma nan_ltb m : (nan <? m) = false.
Proof. rewrite ltb_spec. reflexivity. Qed.

Lemma nan_leb m : (nan <=? m) = false.
Proof. rewrite leb_spec. reflexivity. Qed.

Lemma Math_min_choice a b : Math_min a b = a \/ Math_min a b = b.
Proof.
  unfold Math_min. destruct (is_nan a) eqn:Ea; simpl.
  - left. symmetry. now apply is_nan_inv.
  - destruct (is_nan b) eqn:Eb.
    + right. symmetry. now apply is_nan_inv.
    + destruct (a <? b); auto. destruct (b <? a); auto.
      destruct (is_zero a && get_sign a); auto.
Qed.

Lemma Math_min_nan_l b : Math_min nan b = nan.
Proof. reflexivity. Qed.

Lemma Math_min_nan_r a : Math_min a nan = nan.
Proof.
  unfold Math_min. change (is_nan nan) with true. now rewrite orb_true_r.
Qed.

Lemma Math_min_leb a b :
  is_nan a = false -> is_nan b = false ->
  (Math_min a b <=? a) = true /\ (Math_min a b <=? b) = true.
Proof.
  intros Ha Hb. unfold Math_min. rewrite Ha, Hb. simpl.
  destruct (a <? b) eqn:E1.
  - split; [now apply leb_refl|now apply ltb_leb].
  - destruct (b <? a) eqn:E2.
    + split; [now apply ltb_leb|now apply leb_refl].
    + destruct (is_zero a && get_sign a).
      * split; [now apply leb_refl|now apply not_ltb_leb].
      * split; [now apply not_ltb_leb|now apply leb_refl].
Qed.

Lemma Math_min_not_nan a b :
  is_nan a = false -> is_nan b = false -> is_nan (Math_min a b) = false.
Proof.
  intros Ha Hb. destruct (Math_min_choice a b) as [-> | ->]; assumption.
Qed.

Lemma is_finite_intro x :
  (exists s, Prim2SF x = S754_zero s) \/
  (exists s m e, Prim2SF x = S754_finite s m e) ->
  is_finite x = true.
Proof.
  unfold is_finite, is_nan, is_infinity.
  rewrite !eqb_spec, abs_spec, Prim2SF_infinity. unfold SFeqb.
  intros [[s E]|[s [m [e E]]]]; rewrite E; simpl.
  - reflexivity.
  - rewrite Z.compare_refl.
    change (Pos.compare_cont Eq m m) with (Pos.compare m m).
    rewrite Pos.compare_refl. destruct s; reflexivity.
Qed.

(** A number between two finite numbers is finite. *)
Lemma leb_between_finite a x b :
  is_finite a = true -> is_finite b = true ->
  (a <=? x) = true -> (x <=? b) = true -> is_finite x = true.
Proof.
  intros Ha Hb. rewrite !leb_true_iff. intros H1 H2. apply is_finite_intro.
  destruct (is_finite_inv a Ha) as [[sa Ea]|[sa [ma [ea Ea]]]];
  destruct (is_finite_inv b Hb) as [[sb Eb]|[sb [mb [eb Eb]]]];
  rewrite Ea in *; rewrite Eb in *;
  destruct (Prim2SF x) as [s|[]| |s m e]; simpl in *; eauto;
  try (destruct H1; discriminate); try (destruct H2; discriminate);
  try (destruct sa; destruct H1; discriminate);
  try (destruct sb; destruct H2; discriminate).
Qed.

(** Folding [Math.min] over numbers none of which is NaN gives one of
    them, below all of them. *)
Lemma fold_min_spec (ds : list float) :
  forall m,
    is_nan m = false ->
    Forall (fun d => is_nan d = false) ds ->
    is_nan (fold_left Math_min ds m) = false /\
    (fold_left Math_min ds m <=? m) = true /\
    (forall d, In d ds -> (fold_left Math_min ds m <=? d) = true) /\
    In (fold_left Math_min ds m) (m :: ds).
Proof.
  induction ds as [|d ds IH]; intros m Hm Hds; simpl.
  - repeat split; auto; try (now apply leb_refl); intros d [].
  - inversion Hds as [|? ? Hd Hds']; subst.
    destruct (Math_min_leb m d Hm Hd) as [Hlm Hld].
    destruct (IH (Math_min m d) (Math_min_not_nan m d Hm Hd) Hds')
      as [Hnan [Hle [Hall Hin]]].
    repeat split.
    + exact Hnan.
    + exact (leb_trans _ _ _ Hle Hlm).
    + intros d' [<-|Hd']; [exact (leb_trans _ _ _ Hle Hld)|now apply Hall].
    + destruct Hin as [Hin|Hin]; [|now right; right].
      rewrite <- Hin.
      destruct (Math_min_choice m d) as [-> | ->]; [now left|now right; left].
Qed.

Lemma fold_min_nan (ds : list float) : fold_left Math_min ds nan = nan.
Proof. induction ds as [|d ds IH]; simpl; [reflexivity|exact IH]. Qed.

(** One NaN among the numbers makes the fold NaN. *)
Lemma fold_min_exists_nan (ds : list float) :
  forall m,
    Exists (fun d => is_nan d = true) ds ->
    fold_left Math_min ds m = nan.
Proof.
  induction ds as [|d ds IH]; intros m Hex; simpl.
  - inversion Hex.
  - inversion Hex as [? ? Hd|? ? Hrest]; subst.
    + rewrite (is_nan_inv d Hd), Math_min_nan_r. apply fold_min_nan.
    + now apply IH.
Qed.

End FloatOrderFacts.

(** ** Distance to line geometries *)

Module LinesFacts.
Import Types Distance Lines App FloatFacts FloatOrderFacts.

Section WithMath.
Context {M : JsMath}.

Lemma scanLine_fold (latitude longitude : float) (coordinates : list Position) :
  forall minDistance,
    scanLine latitude longitude coordinates minDistance =
    fold_left Math_min (segmentDistances latitude longitude coordinates)
      minDistance.
Proof.
  induction coordinates as [|[lon1 lat1] rest IH]; intros m; [reflexivity|].
  destruct rest as [|[lon2 lat2] rest']; [reflexivity|].
  change (scanLine latitude longitude ((lon1, lat1) :: (lon2, lat2) :: rest') m)
    with (scanLine latitude longitude ((lon2, lat2) :: rest')
            (Math_min m (distanceToSegment longitude latitude lon1 lat1 lon2 lat2))).
  rewrite IH. reflexivity.
Qed.

Lemma multiLine_fold (latitude longitude : float)
    (coordinates : list (list Position)) :
  forall minDistance,
    fold_left
      (fun m lineString => scanLine latitude longitude lineString m)
      coordinates minDistance =
    fold_left Math_min
      (flat_map (segmentDistances latitude longitude) coordinates)
      minDistance.
Proof.
  induction coordinates as [|line rest IH]; intros m; simpl; [reflexivity|].
  now rewrite fold_left_app, IH, scanLine_fold.
Qed.

Lemma distanceToGeometry_fold (latitude longitude : float)
    (geometry : Geometry) :
  match geometry with
  | LineString _ | MultiLineString _ =>
      distanceToGeometry latitude longitude geometry =
      fold_left Math_min (loopDistances latitude longitude geometry) infinity
  | _ => True
  end.
Proof.
  destruct geometry; simpl; auto.
  - apply scanLine_fold.
  - apply multiLine_fold.
Qed.

Lemma segmentDistances_short (latitude longitude : float)
    (coordinates : list Position) :
  Nat.ltb (List.length coordinates) 2 = true ->
  segmentDistances latitude longitude coordinates = [].
Proof.
  destruct coordinates as [|[? ?] [|? ?]]; simpl; try reflexivity.
  discriminate.
Qed.

Lemma loopDistances_degenerate (latitude longitude : float)
    (geometry : Geometry) :
  degenerateLine geometry = true ->
  loopDistances latitude longitude geometry = [].
Proof.
  destruct geometry as [| |cs|ls| | |]; simpl; try discriminate.
  - apply segmentDistances_short.
  - induction ls as [|l ls IH]; simpl; [reflexivity|].
    intros H. apply andb_true_iff in H as [Hl Hls].
    now rewrite (segmentDistances_short _ _ _ Hl), IH.
Qed.

(** A feature the loop cannot put below [minDistance] is passed over. *)
Lemma scanStep_not_below (location : UserLocation)
    (acc : option NearbyRoute * float) (feature : RouteFeature) :
  (routeDistance location feature <? snd acc) = false ->
  scanStep location acc feature = acc.
Proof.
  destruct acc as [closestRoute minDistance]. unfold scanStep, routeDistance.
  simpl. now intros ->.
Qed.

Lemma closestRouteScan_skip (location : UserLocation)
    (before after : list RouteFeature) (feature : RouteFeature) :
  (forall m, (routeDistance location feature <? m) = false) ->
  closestRouteScan location (before ++ feature :: after) =
  closestRouteScan location (before ++ after).
Proof.
  intros H. unfold closestRouteScan. rewrite !fold_left_app. simpl.
  now rewrite scanStep_not_below by apply H.
Qed.

(** X1: for a LineString or MultiLineString none of whose segment distances
    is NaN, [distanceToGeometry] is at most every segment distance and is
    itself one of them, or [Infinity]. *)
Theorem lineDistance_is_minimum (latitude longitude : float)
    (geometry : Geometry) :
  (exists cs, geometry = LineString cs) \/
  (exists ls, geometry = MultiLineString ls) ->
  Forall (fun d => is_nan d = false)
    (loopDistances latitude longitude geometry) ->
  (forall d, In d (loopDistances latitude longitude geometry) ->
             (distanceToGeometry latitude longitude geometry <=? d) = true) /\
  In (distanceToGeometry latitude longitude geometry)
     (infinity :: loopDistances latitude longitude geometry).
Proof.
  intros Hline Hds.
  assert (E : distanceToGeometry latitude longitude geometry =
              fold_left Math_min (loopDistances latitude longitude geometry)
                infinity).
  { pose proof (distanceToGeometry_fold latitude longitude geometry) as H.
    destruct Hline as [[cs ->]|[ls ->]]; exact H. }
  rewrite E.
  destruct (fold_min_spec _ infinity eq_refl Hds) as [_ [_ [Hall Hin]]].
  split; assumption.
Qed.

(** X2: one NaN among the segment distances of a LineString or
    MultiLineString makes [distanceToGeometry] NaN, and the nearest-route
    scan returns what it returns without that feature. *)
Theorem lineDistance_nan_is_skipped (location : UserLocation)
    (feature : RouteFeature) (before after : list RouteFeature) :
  (exists cs, feature.(Types.geometry) = LineString cs) \/
  (exists ls, feature.(Types.geometry) = MultiLineString ls) ->
  Exists (fun d => is_nan d = true)
    (loopDistances location.(latitude) location.(longitude)
       feature.(Types.geometry)) ->
  routeDistance location feature = nan /\
  closestRouteScan location (before ++ feature :: after) =
  closestRouteScan location (before ++ after).
Proof.
  intros Hline Hex.
  assert (E : routeDistance location feature = nan).
  { unfold routeDistance.
    pose proof (distanceToGeometry_fold location.(latitude)
                  location.(longitude) feature.(Types.geometry)) as H.
    destruct Hline as [[cs Hg]|[ls Hg]]; rewrite Hg in *; rewrite H;
      now apply fold_min_exists_nan. }
  split; [exact E|].
  apply closestRouteScan_skip. intros m. rewrite E. apply nan_ltb.
Qed.

(** X3: a LineString with fewer than two positions, or a MultiLineString
    all of whose lines are that short (an empty one too), is at distance
    [Infinity] from every point, and the nearest-route scan returns what
    it returns without that feature. *)
Theorem degenerateLine_never_nearest (location : UserLocation)
    (feature : RouteFeature) (before after : list RouteFeature) :
  degenerateLine feature.(Types.geometry) = true ->
  routeDistance location feature = infinity /\
  closestRouteScan location (before ++ feature :: after) =
  closestRouteScan location (before ++ after).
Proof.
  intros Hdeg.
  assert (E : routeDistance location feature = infinity).
  { unfold routeDistance.
    pose proof (distanceToGeometry_fold location.(latitude)
                  location.(longitude) feature.(Types.geometry)) as H.
    pose proof (loopDistances_degenerate location.(latitude)
                  location.(longitude) _ Hdeg) as Hnil.
    destruct feature.(Types.geometry); try discriminate Hdeg;
      rewrite H, Hnil; reflexivity. }
  split; [exact E|].
  apply closestRouteScan_skip. intros m. rewrite E. apply infinity_ltb.
Qed.

End WithMath.

Lemma lineDistance_is_minimum_witness :
  In (@routeDistance smallAngleMath Scenario.fixOnPr8 Scenario.pr8)
     (infinity ::
      @loopDistances smallAngleMath
        Scenario.fixOnPr8.(latitude) Scenario.fixOnPr8.(longitude)
        Scenario.pr8.(Types.geometry)).
Proof.
  refine (proj2 (@lineDistance_is_minimum smallAngleMath
                   Scenario.fixOnPr8.(latitude) Scenario.fixOnPr8.(longitude)
                   Scenario.pr8.(Types.geometry) _ _)).
  - left. eexists. reflexivity.
  - vm_compute. repeat constructor.
Defined.

Lemma lineDistance_nan_is_skipped_witness :
  @routeDistance smallAngleMath Scenario.fixOnPr8 Scenario.brokenLine = nan.
Proof.
  refine (proj1 (@lineDistance_nan_is_skipped smallAngleMath
                   Scenario.fixOnPr8 Scenario.brokenLine [] [] _ _)).
  - left. eexists. reflexivity.
  - vm_compute. left. reflexivity.
Defined.

Lemma degenerateLine_never_nearest_witness :
  @routeDistance smallAngleMath Scenario.fixOnPr8 Scenario.stubLine = infinity.
Proof.
  refine (proj1 (@degenerateLine_never_nearest smallAngleMath
                   Scenario.fixOnPr8 Scenario.stubLine [] [] _)).
  reflexivity.
Defined.

End LinesFacts.

(** ** Marking a route and reading the ledger back *)

Module LedgerFacts.
Import Types Cookies.

Local Open Scope nat_scope.
Local Open Scope string_scope.

Lemma existsb_filter_same (routeId date : string) (l : list PaidRoute) :
  existsb
    (fun route => (route.(Types.routeId) =? routeId) && (route.(paidDate) =? date))
    (filter (fun route => negb (route.(Types.routeId) =? routeId)) l) = false.
Proof.
  induction l as [|m l IH]; simpl; [reflexivity|].
  destruct (m.(Types.routeId) =? routeId) eqn:E; simpl; [exact IH|].
  now rewrite E, IH.
Qed.

Lemma existsb_filter_other (marked routeId date : string) (l : list PaidRoute) :
  (marked =? routeId) = false ->
  existsb
    (fun route => (route.(Types.routeId) =? routeId) && (route.(paidDate) =? date))
    (filter (fun route => negb (route.(Types.routeId) =? marked)) l) =
  existsb
    (fun route => (route.(Types.routeId) =? routeId) && (route.(paidDate) =? date))
    l.
Proof.
  intros Hne. induction l as [|m l IH]; simpl; [reflexivity|].
  destruct (String.eqb_spec m.(Types.routeId) marked) as [Em|Em]; simpl.
  - rewrite Em, Hne. simpl. exact IH.
  - now rewrite IH.
Qed.

Lemma filter_filter_same (routeId : string) (l : list PaidRoute) :
  filter (fun route => negb (route.(Types.routeId) =? routeId))
    (filter (fun route => negb (route.(Types.routeId) =? routeId)) l) =
  filter (fun route => negb (route.(Types.routeId) =? routeId)) l.
Proof.
  induction l as [|m l IH]; simpl; [reflexivity|].
  destruct (m.(Types.routeId) =? routeId) eqn:E; simpl; [exact IH|].
  now rewrite E, IH.
Qed.

Lemma marksFor_count_occ (routeId : string) (cookie : Cookie) :
  marksFor routeId cookie =
  count_occ string_dec (map Types.routeId (getPaidRoutes cookie)) routeId.
Proof.
  unfold marksFor. induction (getPaidRoutes cookie) as [|m l IH]; simpl;
    [reflexivity|].
  destruct (String.eqb_spec m.(Types.routeId) routeId) as [E|E];
    destruct (string_dec m.(Types.routeId) routeId); try contradiction;
    simpl; now rewrite IH.
Qed.

Lemma oneMarkPerRoute_NoDup (cookie : Cookie) :
  oneMarkPerRoute cookie <->
  NoDup (map Types.routeId (getPaidRoutes cookie)).
Proof.
  rewrite (NoDup_count_occ string_dec). unfold oneMarkPerRoute.
  split; intros H r; specialize (H r); now rewrite marksFor_count_occ in *.
Qed.

(** X4: what [isRoutePaid] answers after [markRoutePaid]: for the marked
    route, whether the queried date is the date of the mark; for every
    other route, what it answered before. *)
Theorem isRoutePaid_after_markRoutePaid (today date : string)
    (cookie : Cookie) (marked routeId : string) :
  isRoutePaid date (markRoutePaid today cookie marked) routeId =
  if marked =? routeId then today =? date
  else isRoutePaid date cookie routeId.
Proof.
  unfold isRoutePaid, markRoutePaid. cbn [getPaidRoutes].
  rewrite existsb_app. cbn [existsb Types.routeId paidDate].
  destruct (String.eqb_spec marked routeId) as [->|Hne].
  - rewrite existsb_filter_same. simpl. now rewrite orb_false_r.
  - rewrite existsb_filter_other by (now apply String.eqb_neq).
    simpl. now rewrite orb_false_r.
Qed.

(** X5: marking a route again replaces its mark: two marks in a row leave
    the cookie that the second alone would leave, so marking twice on one
    date is marking once. *)
Theorem markRoutePaid_again (first second : string) (cookie : Cookie)
    (routeId : string) :
  markRoutePaid second (markRoutePaid first cookie routeId) routeId =
  markRoutePaid second cookie routeId.
Proof.
  unfold markRoutePaid. cbn [getPaidRoutes]. f_equal. f_equal.
  rewrite filter_app. cbn [filter Types.routeId].
  rewrite String.eqb_refl. simpl. rewrite app_nil_r.
  apply filter_filter_same.
Qed.

(** X6: after [handleMarkPaid] the refreshed [paidRouteIds] are the ids
    stored before without the marked one, in their order, followed by the
    marked id; they hold no id twice when the cookie held at most one mark
    per route. *)
Theorem handleMarkPaid_paidRouteIds (today : string) (cookie : Cookie)
    (routeId : string) :
  snd (App.handleMarkPaid today cookie routeId) =
  (filter (fun i => negb (i =? routeId))
     (map Types.routeId (getPaidRoutes cookie)) ++ [routeId])%list /\
  (oneMarkPerRoute cookie ->
   NoDup (snd (App.handleMarkPaid today cookie routeId))).
Proof.
  split.
  - unfold App.handleMarkPaid, markRoutePaid. cbn [snd getPaidRoutes].
    rewrite map_app. simpl. f_equal.
    induction (getPaidRoutes cookie) as [|m l IH]; simpl; [reflexivity|].
    destruct (m.(Types.routeId) =? routeId); simpl; now rewrite IH.
  - intros Hone. unfold App.handleMarkPaid. cbn [snd].
    apply oneMarkPerRoute_NoDup. intros r.
    rewrite CookiesFacts.marksFor_markRoutePaid.
    destruct (routeId =? r); [lia|apply Hone].
Qed.

Lemma handleMarkPaid_paidRouteIds_witness :
  NoDup (snd (App.handleMarkPaid "2024-05-02"
                (Stored [{| routeId := "PR8"; paidDate := "2024-05-01" |}])
                "PR8")).
Proof.
  apply (proj2 (handleMarkPaid_paidRouteIds "2024-05-02"
                  (Stored [{| routeId := "PR8"; paidDate := "2024-05-01" |}])
                  "PR8")).
  apply CookiesFacts.oneMarkPerRoute_singleton.
Defined.

End LedgerFacts.

(** ** What the panel renders *)

Module InfoPanelFacts.
Import Types InfoPanel.

(** X7: the route-detail view renders exactly one of its message blocks:
    the success message when the route is paid, otherwise the warning when
    a distance is given and is at most 50, otherwise the info message.  A
    NaN distance counts as not nearby. *)
Theorem renderRouteDetail_one_message (isPaid : bool) (distance : option float) :
  renderRouteDetail isPaid distance =
  [if isPaid then success_message
   else match distance with
        | Some d => if d <=? 50 then warning_message else info_message
        | None => info_message
        end] /\
  renderRouteDetail isPaid (Some nan) = renderRouteDetail isPaid None.
Proof.
  split.
  - unfold renderRouteDetail.
    destruct isPaid, distance as [d|]; simpl; try reflexivity;
      destruct (d <=? 50); reflexivity.
  - unfold renderRouteDetail. rewrite FloatOrderFacts.nan_leb. reflexivity.
Qed.

End InfoPanelFacts.

(** ** When the proximity effect opens the panel *)

Module ProximityFacts.
Import Types Distance App FloatFacts FloatOrderFacts.

Section WithMath.
Context {M : JsMath}.

Lemma closestRouteScan_Some (location : UserLocation)
    (features : list RouteFeature) (closest : NearbyRoute) (minDistance : float) :
  closestRouteScan location features = (Some closest, minDistance) ->
  In closest.(route) features /\
  closest.(distance) = routeDistance location closest.(route) /\
  (forall g, In g features ->
             (routeDistance location g <? closest.(distance)) = false).
Proof.
  intros Hscan.
  pose proof (AppFacts.nearestSoFar_closestRouteScan location features) as H.
  rewrite Hscan in H. simpl in H.
  destruct H as [Hmin [Hd [Hr [_ [before [after [Hfeat _]]]]]]].
  repeat split.
  - rewrite Hfeat. apply in_or_app. right. left. reflexivity.
  - now rewrite Hd, Hr.
  - now rewrite Hd.
Qed.

Lemma proximityUpdate_Some_inv (today : string) (cookie : Cookies.Cookie)
    (userLocation : option UserLocation) (routes : option RouteCollection)
    (state : InfoPanelState) :
  proximityUpdate today cookie userLocation routes = Some state ->
  exists location collection closest,
    userLocation = Some location /\
    routes = Some collection /\
    In closest.(route) collection.(features) /\
    closest.(distance) = routeDistance location closest.(route) /\
    (forall g, In g collection.(features) ->
               (routeDistance location g <? closest.(distance)) = false) /\
    (closest.(distance) <=? PROXIMITY_THRESHOLD) = true /\
    closest.(route).(properties).(requiresPayment) = true /\
    Cookies.isRoutePaid today cookie closest.(route).(properties).(id) = false /\
    state = {| isOpen := true;
               view := route_detail;
               selectedRoute := Some closest.(route);
               nearbyRoute := Some closest |}.
Proof.
  unfold proximityUpdate.
  destruct userLocation as [location|]; [|discriminate].
  destruct routes as [collection|]; [|discriminate].
  destruct (closestRouteScan location collection.(features))
    as [[closest|] minDistance] eqn:Hscan; [|discriminate].
  destruct (closest.(distance) <=? PROXIMITY_THRESHOLD) eqn:Hnear;
    [|discriminate].
  destruct (closest.(route).(properties).(requiresPayment)) eqn:Hpay;
    [|discriminate].
  destruct (Cookies.isRoutePaid today cookie closest.(route).(properties).(id))
    eqn:Hpaid; [discriminate|].
  simpl. intros H. injection H as <-.
  destruct (closestRouteScan_Some _ _ _ _ Hscan) as [Hin [Hd Hmin]].
  exists location, collection, closest. repeat split; assumption.
Qed.

(** X8: the proximity effect calls [setInfoPanelState] only with a route
    of the loaded catalogue that no route is strictly nearer than, whose
    distance is at most [PROXIMITY_THRESHOLD], that requires payment and
    is not paid for today; the state it sets is the open route-detail view
    of that route with the route as nearby route. *)
Theorem proximityUpdate_sound (today : string) (cookie : Cookies.Cookie)
    (userLocation : option UserLocation) (routes : option RouteCollection)
    (state : InfoPanelState) :
  proximityUpdate today cookie userLocation routes = Some state ->
  exists location collection closest,
    userLocation = Some location /\
    routes = Some collection /\
    In closest.(route) collection.(features) /\
    closest.(distance) = routeDistance location closest.(route) /\
    (forall g, In g collection.(features) ->
               (routeDistance location g <? closest.(distance)) = false) /\
    (closest.(distance) <=? PROXIMITY_THRESHOLD) = true /\
    closest.(route).(properties).(requiresPayment) = true /\
    Cookies.isRoutePaid today cookie closest.(route).(properties).(id) = false /\
    state = {| isOpen := true;
               view := route_detail;
               selectedRoute := Some closest.(route);
               nearbyRoute := Some closest |}.
Proof.
  intros Hupd.
  destruct (proximityUpdate_Some_inv today cookie userLocation routes state Hupd)
    as [location [collection [closest H]]].
  exists location, collection, closest. exact H.
Qed.

(** X9: when no route of the catalogue is within [PROXIMITY_THRESHOLD] of
    the fix, the proximity effect leaves the panel as it is, whatever the
    routes' payment flags and the ledger. *)
Theorem proximity_silent_when_far (today : string) (cookie : Cookies.Cookie)
    (location : UserLocation) (collection : RouteCollection)
    (infoPanelState : InfoPanelState) :
  (forall g, In g collection.(features) ->
             (routeDistance location g <=? PROXIMITY_THRESHOLD) = false) ->
  proximityUpdate today cookie (Some location) (Some collection) = None /\
  proximityEffect today cookie (Some location) (Some collection) infoPanelState =
    infoPanelState.
Proof.
  intros Hfar.
  assert (Hupd : proximityUpdate today cookie (Some location) (Some collection) =
                 None).
  { destruct (proximityUpdate today cookie (Some location) (Some collection))
      as [state|] eqn:E; [|reflexivity].
    destruct (proximityUpdate_Some_inv _ _ _ _ _ E)
      as [location' [collection' [closest [Hl [Hc [Hin [Hd [_ [Hnear _]]]]]]]]].
    injection Hl as <-. injection Hc as <-.
    rewrite Hd, (Hfar _ Hin) in Hnear. discriminate. }
  split; [exact Hupd|]. unfold proximityEffect. now rewrite Hupd.
Qed.

End WithMath.

Lemma proximityUpdate_sound_witness :
  exists closest : NearbyRoute,
    In closest.(route) [Scenario.pr8] /\
    closest.(route).(properties).(requiresPayment) = true.
Proof.
  destruct (@proximityUpdate_sound smallAngleMath "2024-05-01" Cookies.Absent
              (Some Scenario.fixOnPr8) (Some {| features := [Scenario.pr8] |})
              {| isOpen := true; view := route_detail;
                 selectedRoute := Some Scenario.pr8;
                 nearbyRoute :=
                   Some {| route := Scenario.pr8; distance := 0 |} |}
              eq_refl)
    as [location [collection [closest [_ [Hc [Hin [_ [_ [_ [Hpay _]]]]]]]]]].
  injection Hc as <-. exists closest. split; assumption.
Defined.

Lemma proximity_silent_when_far_witness :
  @proximityUpdate smallAngleMath "2024-05-01" Cookies.Absent
    (Some Scenario.fixInFunchal) (Some {| features := [Scenario.pr8] |}) = None.
Proof.
  refine (proj1 (@proximity_silent_when_far smallAngleMath "2024-05-01"
                   Cookies.Absent Scenario.fixInFunchal
                   {| features := [Scenario.pr8] |}
                   {| isOpen := false; view := main;
                      selectedRoute := None; nearbyRoute := None |} _)).
  intros g [<-|[]]. vm_compute. reflexivity.
Defined.

End ProximityFacts.

(** ** Taps, closing and the panel over a run of events *)

Module AppEventsFacts.
Import Types App AppEvents.

Local Open Scope string_scope.

Lemma findRoute_Some (routeId : string) (collection : RouteCollection)
    (route : RouteFeature) :
  findRoute routeId collection = Some route ->
  route.(properties).(id) = routeId /\
  exists before after,
    collection.(features) = (before ++ route :: after)%list /\
    forall g, In g before -> g.(properties).(id) <> routeId.
Proof.
  unfold findRoute. induction collection.(features) as [|f l IH]; simpl;
    [discriminate|].
  destruct (String.eqb_spec f.(properties).(id) routeId) as [E|E].
  - intros H. injection H as <-. split; [exact E|].
    exists [], l. split; [reflexivity|intros g []].
  - intros H. destruct (IH H) as [Hid [before [after [-> Hbefore]]]].
    split; [exact Hid|].
    exists (f :: before), after. split; [reflexivity|].
    intros g [<-|Hg]; [exact E|now apply Hbefore].
Qed.

(** X10: a tap on a route id: without a loaded catalogue, or with an id no
    route of it carries, nothing changes; otherwise the first route of the
    catalogue with that id becomes the selected route of the open
    route-detail view, with no nearby route, so the view renders the
    success message when the route is paid for today and the info message
    when it is not, and never the warning, wherever the user stands. *)
Theorem handleRouteClick_selects (today : string) (cookie : Cookies.Cookie)
    (routeId : string) (state : AppState) :
  match state.(routes) with
  | None => handleRouteClick routeId state = state
  | Some collection =>
      match findRoute routeId collection with
      | None => handleRouteClick routeId state = state
      | Some route =>
          route.(properties).(id) = routeId /\
          (exists before after,
             collection.(features) = (before ++ route :: after)%list /\
             forall g, In g before -> g.(properties).(id) <> routeId) /\
          (handleRouteClick routeId state).(selectedRouteId) = Some routeId /\
          (handleRouteClick routeId state).(infoPanelState) =
            {| isOpen := true; view := route_detail;
               selectedRoute := Some route; nearbyRoute := None |} /\
          InfoPanel.renderContent today cookie
            (handleRouteClick routeId state).(infoPanelState) =
            [if Cookies.isRoutePaid today cookie routeId
             then InfoPanel.success_message
             else InfoPanel.info_message]
      end
  end.
Proof.
  unfold handleRouteClick.
  destruct state.(routes) as [collection|]; [|reflexivity].
  destruct (findRoute routeId collection) as [route|] eqn:Hfind; [|reflexivity].
  destruct (findRoute_Some _ _ _ Hfind) as [Hid Hfirst].
  split; [exact Hid|]. split; [exact Hfirst|]. repeat split.
  unfold InfoPanel.renderContent, InfoPanel.renderRouteDetail. simpl.
  rewrite Hid. destruct (Cookies.isRoutePaid today cookie routeId); reflexivity.
Qed.

Section WithMath.
Context {M : JsMath}.

Lemma nearbyRouteConsistent_proximityEffect (today : string)
    (cookie : Cookies.Cookie) (userLocation : option UserLocation)
    (routes : option RouteCollection) (panel : InfoPanelState) :
  nearbyRouteConsistent panel ->
  nearbyRouteConsistent
    (proximityEffect today cookie userLocation routes panel).
Proof.
  intros Hpanel. unfold proximityEffect.
  destruct (proximityUpdate today cookie userLocation routes) as [state|] eqn:E;
    [|exact Hpanel].
  destruct (ProximityFacts.proximityUpdate_Some_inv _ _ _ _ _ E)
    as [location [collection [closest
         [_ [_ [_ [_ [_ [Hnear [Hpay [_ ->]]]]]]]]]]].
  unfold nearbyRouteConsistent. simpl. auto.
Qed.

Lemma nearbyRouteConsistent_step (state : AppState)
    (occurrence : string * Cookies.Cookie * Event) :
  nearbyRouteConsistent state.(infoPanelState) ->
  nearbyRouteConsistent (step state occurrence).(infoPanelState).
Proof.
  destruct occurrence as [[today cookie] event]. intros Hst.
  destruct event as [location|res|routeId| | |view|]; simpl.
  - now apply nearbyRouteConsistent_proximityEffect.
  - unfold onRoutesFetched. destruct res as [|[] [data|]]; try exact Hst.
    now apply nearbyRouteConsistent_proximityEffect.
  - unfold handleRouteClick. destruct state.(routes); [|exact Hst].
    destruct (findRoute routeId _); [exact I|exact Hst].
  - exact Hst.
  - exact Hst.
  - exact I.
  - exact Hst.
Qed.

Lemma nearbyRouteConsistent_run
    (occurrences : list (string * Cookies.Cookie * Event)) :
  forall state,
    nearbyRouteConsistent state.(infoPanelState) ->
    nearbyRouteConsistent (run occurrences state).(infoPanelState).
Proof.
  induction occurrences as [|o rest IH]; intros state Hst; [exact Hst|].
  apply (IH (step state o)). now apply nearbyRouteConsistent_step.
Qed.

(** X11: after any run of location fixes, catalogue fetches, taps, map
    clicks, closings, menu navigations and ledger reads from the initial
    state, whatever the date and the cookie at each of them: if the panel
    renders the warning, then it carries a nearby route which is its
    selected route, lies within [PROXIMITY_THRESHOLD], requires payment and
    is not paid for today.  The warning is never rendered for a free
    route. *)
Theorem warning_only_for_nearby_payable_route
    (occurrences : list (string * Cookies.Cookie * Event))
    (today : string) (cookie : Cookies.Cookie) :
  In InfoPanel.warning_message
    (InfoPanel.renderContent today cookie
       (run occurrences initialState).(infoPanelState)) ->
  exists nearby,
    (run occurrences initialState).(infoPanelState).(nearbyRoute) = Some nearby /\
    (run occurrences initialState).(infoPanelState).(selectedRoute) =
      Some nearby.(route) /\
    (nearby.(distance) <=? PROXIMITY_THRESHOLD)%float = true /\
    nearby.(route).(properties).(requiresPayment) = true /\
    Cookies.isRoutePaid today cookie nearby.(route).(properties).(id) = false.
Proof.
  pose proof (nearbyRouteConsistent_run occurrences initialState I) as Hinv.
  destruct (run occurrences initialState).(infoPanelState)
    as [open v selected nearbyOpt].
  unfold nearbyRouteConsistent in Hinv. simpl in *.
  unfold InfoPanel.renderContent. simpl.
  destruct v; simpl; try contradiction.
  destruct selected as [sel|]; [|contradiction].
  destruct nearbyOpt as [nearby|].
  - destruct Hinv as [Hsel [_ [Hnear Hpay]]]. injection Hsel as ->.
    intros Hwarn. exists nearby. repeat split; try assumption.
    destruct (Cookies.isRoutePaid today cookie nearby.(route).(properties).(id))
      eqn:Hpaid; [|reflexivity].
    unfold InfoPanel.renderRouteDetail in Hwarn. simpl in Hwarn.
    rewrite !andb_false_r, !andb_true_r in Hwarn. simpl in Hwarn.
    destruct (nearby.(distance) <=? 50)%float; simpl in Hwarn;
      destruct Hwarn as [Hw|Hw]; try discriminate Hw; contradiction.
  - unfold InfoPanel.renderRouteDetail. simpl.
    destruct (Cookies.isRoutePaid today cookie sel.(properties).(id)); simpl;
      intros [Hw|[]]; discriminate Hw.
Qed.

(** X12: the proximity effect does not look at the selection made by a
    tap: a fix whose nearest route is within the threshold, requires
    payment and is unpaid replaces the tapped route in the panel by that
    route, while [selectedRouteId] keeps the tapped id. *)
Theorem proximity_replaces_tapped_route
    (today : string) (cookie : Cookies.Cookie) (tapped : string)
    (location : UserLocation) (state : AppState)
    (collection : RouteCollection) (closest : NearbyRoute) (minDistance : float) :
  state.(routes) = Some collection ->
  closestRouteScan location collection.(features) = (Some closest, minDistance) ->
  (closest.(distance) <=? PROXIMITY_THRESHOLD)%float = true ->
  closest.(route).(properties).(requiresPayment) = true ->
  Cookies.isRoutePaid today cookie closest.(route).(properties).(id) = false ->
  (onLocation today cookie location
     (handleRouteClick tapped state)).(infoPanelState) =
    {| isOpen := true; view := route_detail;
       selectedRoute := Some closest.(route);
       nearbyRoute := Some closest |} /\
  (onLocation today cookie location
     (handleRouteClick tapped state)).(selectedRouteId) =
    (handleRouteClick tapped state).(selectedRouteId).
Proof.
  intros Hroutes Hscan Hnear Hpay Hunpaid.
  assert (Hkeep : (handleRouteClick tapped state).(routes) = Some collection).
  { unfold handleRouteClick. rewrite Hroutes.
    destruct (findRoute tapped collection); simpl; [reflexivity|exact Hroutes]. }
  split; [|reflexivity].
  unfold onLocation, runProximity. simpl. rewrite Hkeep.
  unfold proximityEffect, proximityUpdate.
  now rewrite Hscan, Hnear, Hpay, Hunpaid.
Qed.

End WithMath.

Lemma warning_only_for_nearby_payable_route_witness :
  exists nearby : NearbyRoute,
    nearby.(route).(properties).(requiresPayment) = true.
Proof.
  destruct (@warning_only_for_nearby_payable_route smallAngleMath
              [("2024-05-01", Cookies.Absent,
                RoutesFetched
                  (Response true (Some {| features := [Scenario.pr8] |})));
               ("2024-05-01", Cookies.Absent,
                LocationFix Scenario.fixOnPr8)]
              "2024-05-01" Cookies.Absent)
    as [nearby [_ [_ [_ [Hpay _]]]]].
  - vm_compute. left. reflexivity.
  - exists nearby. exact Hpay.
Defined.

Lemma proximity_replaces_tapped_route_witness :
  selectedRoute
    (infoPanelState
       (@onLocation smallAngleMath "2024-05-01" Cookies.Absent
          Scenario.fixOnPr8
          (handleRouteClick "LAG"
             {| userLocation := None;
                routes := Some {| features := [Scenario.lagoon; Scenario.pr8] |};
                paidRouteIds := [];
                selectedRouteId := None;
                infoPanelState := initialState.(infoPanelState) |}))) =
  Some Scenario.pr8.
Proof.
  refine (f_equal selectedRoute (proj1
    (@proximity_replaces_tapped_route smallAngleMath
       "2024-05-01" Cookies.Absent "LAG" Scenario.fixOnPr8
       {| userLocation := None;
          routes := Some {| features := [Scenario.lagoon; Scenario.pr8] |};
          paidRouteIds := [];
          selectedRouteId := None;
          infoPanelState := initialState.(infoPanelState) |}
       {| features := [Scenario.lagoon; Scenario.pr8] |}
       {| route := Scenario.pr8; distance := 0 |} 0 _ _ _ _ _)));
    vm_compute; reflexivity.
Defined.

End AppEventsFacts.

(** ** The bounds check and the map *)

Module MapFacts.
Import Types Geolocation MapView FloatOrderFacts.

(** X13: [isInMadeira] accepts only finite coordinates (never NaN, never
    an infinity), and only between the southern bound of Madeira and the
    northern bound of Porto Santo, and between the western bound of
    Madeira and the eastern bound of Porto Santo. *)
Theorem isInMadeira_finite_inside (latitude longitude : float) :
  isInMadeira latitude longitude = true ->
  is_finite latitude = true /\ is_finite longitude = true /\
  (madeiraBounds.(south) <=? latitude) = true /\
  (latitude <=? portoSantoBounds.(north)) = true /\
  (madeiraBounds.(west) <=? longitude) = true /\
  (longitude <=? portoSantoBounds.(east)) = true.
Proof.
  unfold isInMadeira. intros H.
  assert (Hbox :
    (madeiraBounds.(south) <=? latitude) = true /\
    (latitude <=? portoSantoBounds.(north)) = true /\
    (madeiraBounds.(west) <=? longitude) = true /\
    (longitude <=? portoSantoBounds.(east)) = true).
  { apply orb_true_iff in H as [H|H];
      repeat (apply andb_true_iff in H as [H ?]).
    - repeat split; try assumption.
      + apply (leb_trans _ madeiraBounds.(north)); [assumption|reflexivity].
      + apply (leb_trans _ madeiraBounds.(east)); [assumption|reflexivity].
    - repeat split; try assumption.
      + apply (leb_trans _ portoSantoBounds.(south)); [reflexivity|assumption].
      + apply (leb_trans _ portoSantoBounds.(west)); [reflexivity|assumption]. }
  destruct Hbox as [H1 [H2 [H3 H4]]].
  repeat split; try assumption.
  - apply (leb_between_finite madeiraBounds.(south) latitude
             portoSantoBounds.(north)); auto.
  - apply (leb_between_finite madeiraBounds.(west) longitude
             portoSantoBounds.(east)); auto.
Qed.

Lemma isInMadeira_finite_inside_witness :
  is_finite Scenario.fixOnPr8.(latitude) = true.
Proof.
  apply (isInMadeira_finite_inside Scenario.fixOnPr8.(latitude)
           Scenario.fixOnPr8.(longitude)).
  reflexivity.
Defined.

Lemma locationEffects_with_marker (renders : list (bool * option UserLocation)) :
  forall state,
    state.(userMarker) <> None ->
    snd (locationEffects renders state) = [] /\
    (fst (locationEffects renders state)).(hasMovedToUser) =
      state.(hasMovedToUser).
Proof.
  induction renders as [|[mapReady userLocation] rest IH]; intros state Hm;
    [split; reflexivity|].
  simpl.
  destruct (locationEffect mapReady userLocation state) as [state' flown] eqn:E.
  assert (H : state'.(userMarker) <> None /\
              state'.(hasMovedToUser) = state.(hasMovedToUser) /\
              flown = None).
  { unfold locationEffect in E.
    destruct mapReady; [|injection E as <- <-; auto].
    destruct userLocation as [location|]; [|injection E as <- <-; auto].
    destruct state.(userMarker) as [p|] eqn:Ep; [|contradiction].
    injection E as <- <-. simpl. repeat split. discriminate. }
  destruct H as [Hm' [Hmoved ->]].
  destruct (IH state' Hm') as [Hnil Hkeep].
  destruct (locationEffects rest state') as [final flights]. simpl in *.
  split; [exact Hnil|congruence].
Qed.

Lemma locationEffects_flights (renders : list (bool * option UserLocation)) :
  forall state,
    state.(userMarker) = None ->
    (List.length (snd (locationEffects renders state)) <= 1)%nat /\
    (forall centre, In centre (snd (locationEffects renders state)) ->
                    isInMadeira (snd centre) (fst centre) = true /\
                    (fst (locationEffects renders state)).(hasMovedToUser) = true).
Proof.
  induction renders as [|[mapReady userLocation] rest IH]; intros state Hm.
  - simpl. split; [lia|intros c []].
  - simpl.
    destruct (locationEffect mapReady userLocation state) as [state' flown] eqn:E.
    unfold locationEffect in E.
    destruct mapReady;
      [|injection E as <- <-; specialize (IH state Hm);
        destruct (locationEffects rest state); exact IH].
    destruct userLocation as [location|];
      [|injection E as <- <-; specialize (IH state Hm);
        destruct (locationEffects rest state); exact IH].
    rewrite Hm in E.
    destruct (isInMadeira location.(latitude) location.(longitude)
              && negb state.(hasMovedToUser)) eqn:Efly;
      injection E as <- <-.
    + destruct (locationEffects_with_marker rest
                  {| userMarker := Some (location.(longitude), location.(latitude));
                     hasMovedToUser := true |}) as [Hnil Hkeep];
        [discriminate|].
      destruct (locationEffects rest _) as [final flights]. simpl in *.
      subst flights. split; [simpl; lia|].
      intros centre [<-|[]]. simpl. split; [|exact Hkeep].
      now apply andb_true_iff in Efly as [Hin _].
    + destruct (locationEffects_with_marker rest
                  {| userMarker := Some (location.(longitude), location.(latitude));
                     hasMovedToUser := state.(hasMovedToUser) |}) as [Hnil _];
        [discriminate|].
      destruct (locationEffects rest _) as [final flights]. simpl in *.
      subst flights. split; [simpl; lia|intros c []].
Qed.

(** X14: over any sequence of renders from the initial state the location
    effect flies the map to the user at most once, only to a position
    [isInMadeira] accepts, and [hasMovedToUser] is set from then on. *)
Theorem map_flies_to_user_at_most_once
    (renders : list (bool * option UserLocation)) :
  (List.length (snd (locationEffects renders initialMarkerState)) <= 1)%nat /\
  (forall centre,
     In centre (snd (locationEffects renders initialMarkerState)) ->
     isInMadeira (snd centre) (fst centre) = true /\
     (fst (locationEffects renders initialMarkerState)).(hasMovedToUser) = true).
Proof.
  destruct (locationEffects_flights renders initialMarkerState eq_refl)
    as [Hlen Hin].
  split; assumption.
Qed.

(** X15: the map flies only when the marker is created: if the first fix
    that reaches a ready map is outside the bounds, the map never flies to
    the user, wherever the later fixes are. *)
Theorem map_never_flies_after_first_fix_outside
    (location : UserLocation) (rest : list (bool * option UserLocation)) :
  isInMadeira location.(latitude) location.(longitude) = false ->
  snd (locationEffects ((true, Some location) :: rest) initialMarkerState) = [].
Proof.
  intros Hout. simpl. rewrite Hout. simpl.
  destruct (locationEffects_with_marker rest
              {| userMarker := Some (location.(longitude), location.(latitude));
                 hasMovedToUser := false |}) as [Hnil _]; [discriminate|].
  destruct (locationEffects rest _) as [final flights]. exact Hnil.
Qed.

Lemma map_flies_to_user_at_most_once_witness :
  isInMadeira Scenario.fixOnPr8.(latitude) Scenario.fixOnPr8.(longitude) = true.
Proof.
  apply (proj2 (map_flies_to_user_at_most_once
                  [(true, Some Scenario.fixOnPr8);
                   (true, Some Scenario.fixInFunchal)])
           (Scenario.fixOnPr8.(longitude), Scenario.fixOnPr8.(latitude))).
  left. reflexivity.
Defined.

Lemma map_never_flies_after_first_fix_outside_witness :
  snd (locationEffects
         [(true, Some Scenario.fixInLisbon); (true, Some Scenario.fixOnPr8)]
         initialMarkerState) = [].
Proof.
  apply (map_never_flies_after_first_fix_outside Scenario.fixInLisbon
           [(true, Some Scenario.fixOnPr8)]).
  reflexivity.
Defined.

Local Open Scope string_scope.

Lemma existsb_eqb_In (id : string) (ids : list string) :
  existsb (String.eqb id) ids = true <-> In id ids.
Proof.
  rewrite existsb_exists. split.
  - intros [x [Hin Hx]]. apply String.eqb_eq in Hx. now subst.
  - intros Hin. exists id. split; [exact Hin|apply String.eqb_refl].
Qed.

Lemma lineColor_not_selected (selectedRouteId : option string)
    (paidRoutes : list string) (id : string) :
  id <> selectedOrEmpty selectedRouteId ->
  lineColor selectedRouteId paidRoutes id =
  if existsb (String.eqb id) paidRoutes then "#51cf66" else "#ff6b6b".
Proof.
  intros Hne. unfold lineColor.
  now apply String.eqb_neq in Hne as ->.
Qed.

Lemma existsb_filter_ids (other routeId : string) (ids : list string) :
  (other =? routeId) = false ->
  existsb (String.eqb other) (filter (fun i => negb (i =? routeId)) ids) =
  existsb (String.eqb other) ids.
Proof.
  intros Hne. induction ids as [|i l IH]; simpl; [reflexivity|].
  destruct (String.eqb_spec i routeId) as [->|Hi]; simpl.
  - rewrite Hne. simpl. exact IH.
  - now rewrite IH.
Qed.

(** X16: once [handleMarkPaid] has refreshed [paidRouteIds], the marked
    route is drawn in the paid colour unless it is the selected route, and
    every other route is drawn in the colour it had with the ids stored
    before. *)
Theorem marked_route_drawn_paid (today : string) (cookie : Cookies.Cookie)
    (routeId : string) (selectedRouteId : option string) :
  (routeId <> selectedOrEmpty selectedRouteId ->
   lineColor selectedRouteId
     (snd (App.handleMarkPaid today cookie routeId)) routeId = "#51cf66") /\
  (forall other,
     other <> routeId ->
     lineColor selectedRouteId
       (snd (App.handleMarkPaid today cookie routeId)) other =
     lineColor selectedRouteId
       (map Types.routeId (Cookies.getPaidRoutes cookie)) other).
Proof.
  assert (Hids : snd (App.handleMarkPaid today cookie routeId) =
                 (filter (fun i => negb (i =? routeId))
                    (map Types.routeId (Cookies.getPaidRoutes cookie))
                  ++ [routeId])%list).
  { unfold App.handleMarkPaid, Cookies.markRoutePaid.
    cbn [snd Cookies.getPaidRoutes]. rewrite map_app. simpl. f_equal.
    induction (Cookies.getPaidRoutes cookie) as [|m l IH]; simpl; [reflexivity|].
    destruct (m.(Types.routeId) =? routeId); simpl; now rewrite IH. }
  rewrite Hids. split.
  - intros Hne. rewrite lineColor_not_selected by exact Hne.
    rewrite existsb_app. simpl. rewrite String.eqb_refl.
    now rewrite orb_true_r.
  - intros other Hne. unfold lineColor.
    destruct (other =? selectedOrEmpty selectedRouteId); [reflexivity|].
    rewrite existsb_app. simpl.
    apply String.eqb_neq in Hne. rewrite Hne. simpl. rewrite orb_false_r.
    now rewrite existsb_filter_ids by exact Hne.
Qed.

Lemma marked_route_drawn_paid_witness :
  lineColor None
    (snd (App.handleMarkPaid "2024-05-01" Cookies.Absent "PR8")) "PR8" =
  "#51cf66".
Proof.
  apply (proj1 (marked_route_drawn_paid "2024-05-01" Cookies.Absent "PR8" None)).
  discriminate.
Defined.

(** X17: [paidRouteIds] is read from the cookie without looking at dates:
    a route whose only mark carries another date than today is drawn in
    the paid colour (when it is not the selected route) although
    [isRoutePaid] answers false for it. *)
Theorem stale_mark_drawn_paid (today : string) (cookie : Cookies.Cookie)
    (mark : PaidRoute) (state : AppEvents.AppState) :
  In mark (Cookies.getPaidRoutes cookie) ->
  Cookies.oneMarkPerRoute cookie ->
  mark.(paidDate) <> today ->
  mark.(Types.routeId) <>
    selectedOrEmpty (AppEvents.refreshPaidRouteIds cookie state).(AppEvents.selectedRouteId) ->
  lineColor
    (AppEvents.refreshPaidRouteIds cookie state).(AppEvents.selectedRouteId)
    (AppEvents.refreshPaidRouteIds cookie state).(AppEvents.paidRouteIds)
    mark.(Types.routeId) = "#51cf66" /\
  Cookies.isRoutePaid today cookie mark.(Types.routeId) = false.
Proof.
  intros Hin Hone Hdate Hsel. split.
  - rewrite lineColor_not_selected by exact Hsel.
    replace (existsb (String.eqb mark.(Types.routeId))
               (AppEvents.refreshPaidRouteIds cookie state).(AppEvents.paidRouteIds))
      with true; [reflexivity|].
    symmetry. apply existsb_eqb_In. simpl. now apply in_map.
  - destruct (Cookies.isRoutePaid today cookie mark.(Types.routeId)) eqn:E;
      [|reflexivity].
    apply CookiesFacts.isRoutePaid_spec in E as [m [Hin' [Hr Hd]]].
    assert (mark = m)
      by (apply (CookiesFacts.oneMark_unique (Cookies.getPaidRoutes cookie));
          [apply Hone|assumption..]).
    subst m. contradiction.
Qed.

Lemma stale_mark_drawn_paid_witness :
  Cookies.isRoutePaid "2024-05-02"
    (Cookies.Stored [{| routeId := "PR8"; paidDate := "2024-05-01" |}])
    "PR8" = false.
Proof.
  refine (proj2 (stale_mark_drawn_paid "2024-05-02"
                   (Cookies.Stored [{| routeId := "PR8"; paidDate := "2024-05-01" |}])
                   {| routeId := "PR8"; paidDate := "2024-05-01" |}
                   AppEvents.initialState _ _ _ _)).
  - left. reflexivity.
  - apply CookiesFacts.oneMarkPerRoute_singleton.
  - discriminate.
  - discriminate.
Defined.

End MapFacts.

(** ** Confirming a payment while the warning is shown *)

Module ConfirmFacts.
Import Types App.

Section WithMath.
Context {M : JsMath}.

(** X18: the state the proximity effect sets renders the warning; once
    [handleMarkPaid] has marked the route the panel shows, the same state
    renders the success message instead. *)
Theorem marking_paid_turns_warning_into_success
    (today : string) (cookie : Cookies.Cookie)
    (userLocation : option UserLocation) (routes : option RouteCollection)
    (state : InfoPanelState) :
  proximityUpdate today cookie userLocation routes = Some state ->
  exists route,
    state.(selectedRoute) = Some route /\
    InfoPanel.renderContent today cookie state = [InfoPanel.warning_message] /\
    InfoPanel.renderContent today
      (fst (handleMarkPaid today cookie route.(properties).(id))) state =
      [InfoPanel.success_message].
Proof.
  intros Hupd.
  destruct (ProximityFacts.proximityUpdate_Some_inv _ _ _ _ _ Hupd)
    as [location [collection [closest
         [_ [_ [_ [_ [_ [Hnear [_ [Hunpaid ->]]]]]]]]]]].
  exists closest.(route). split; [reflexivity|].
  unfold InfoPanel.renderContent, InfoPanel.renderRouteDetail, handleMarkPaid.
  cbn [view selectedRoute nearbyRoute option_map fst].
  unfold PROXIMITY_THRESHOLD in Hnear.
  rewrite Hunpaid, Hnear, CookiesFacts.isRoutePaid_markRoutePaid.
  split; reflexivity.
Qed.

End WithMath.

Lemma marking_paid_turns_warning_into_success_witness :
  exists route : RouteFeature,
    InfoPanel.renderContent "2024-05-01"
      (fst (handleMarkPaid "2024-05-01" Cookies.Absent route.(properties).(id)))
      {| isOpen := true; view := route_detail;
         selectedRoute := Some Scenario.pr8;
         nearbyRoute := Some {| route := Scenario.pr8; distance := 0 |} |} =
    [InfoPanel.success_message].
Proof.
  destruct (@marking_paid_turns_warning_into_success smallAngleMath
              "2024-05-01" Cookies.Absent
              (Some Scenario.fixOnPr8) (Some {| features := [Scenario.pr8] |})
              {| isOpen := true; view := route_detail;
                 selectedRoute := Some Scenario.pr8;
                 nearbyRoute :=
                   Some {| route := Scenario.pr8; distance := 0 |} |}
              eq_refl)
    as [route [_ [_ Hsuccess]]].
  exists route. exact Hsuccess.
Defined.

End ConfirmFacts.

(** ** The trail marker taken from the symbol *)

Module TrailMarkerFacts.
Import Stdlib.Strings.Ascii.
Import TrailMarker.

Local Open Scope string_scope.

Lemma split_no_sep (sep : ascii) (s : string) :
  occurs sep s = false -> split sep s = [s].
Proof.
  induction s as [|c rest IH]; simpl; [reflexivity|].
  intros H. apply orb_false_iff in H as [Hc Hrest].
  rewrite Hc, (IH Hrest). reflexivity.
Qed.

Lemma split_append (sep : ascii) (s t : string) :
  occurs sep s = false ->
  split sep (s ++ String sep t) = s :: split sep t.
Proof.
  induction s as [|c rest IH]; simpl; intros H.
  - now rewrite Ascii.eqb_refl.
  - apply orb_false_iff in H as [Hc Hrest].
    rewrite Hc, (IH Hrest). reflexivity.
Qed.

(** Splitting what was joined gives the pieces back. *)
Lemma split_concat (sep : ascii) (fields : list string) :
  fields <> [] ->
  forallb (fun f => negb (occurs sep f)) fields = true ->
  split sep (String.concat (String sep EmptyString) fields) = fields.
Proof.
  induction fields as [|f rest IH]; [congruence|]. intros _ H.
  simpl in H. apply andb_true_iff in H as [Hf Hrest].
  apply negb_true_iff in Hf.
  destruct rest as [|g rest'].
  - simpl. now apply split_no_sep.
  - change (String.concat (String sep "") (f :: g :: rest'))
      with (f ++ String sep (String.concat (String sep "") (g :: rest'))).
    rewrite (split_append sep f _ Hf), IH;
      [reflexivity|discriminate|exact Hrest].
Qed.

(** X19: no trail-marker row is rendered when the symbol is missing or
    empty.  For a symbol made of colon-separated fields that is not empty,
    the row shows the fourth field when there is one and it is not empty,
    and [props.ref] otherwise; so a symbol without a colon always falls
    back to [props.ref]. *)
Theorem trailMarker_fourth_field (fields : list string) (ref : option string) :
  forallb (fun f => negb (occurs ":"%char f)) fields = true ->
  trailMarker None ref = None /\
  trailMarker (Some (String.concat ":" fields)) ref =
  match String.concat ":" fields with
  | EmptyString => None
  | String _ _ =>
      Some
        match nth_error fields 3 with
        | Some (String c rest) => Some (String c rest)
        | _ => ref
        end
  end.
Proof.
  intros Hfields. split; [reflexivity|]. unfold trailMarker.
  destruct (String.concat ":" fields) as [|c rest] eqn:E; [reflexivity|].
  rewrite <- E.
  destruct fields as [|f more]; [discriminate E|].
  rewrite split_concat; [reflexivity|discriminate|exact Hfields].
Qed.

Lemma trailMarker_fourth_field_witness :
  trailMarker (Some "blue:white:blue_bar:PR8:black") (Some "PR 8") =
  Some (Some "PR8").
Proof.
  apply (proj2 (trailMarker_fourth_field
                  ["blue"; "white"; "blue_bar"; "PR8"; "black"]
                  (Some "PR 8") eq_refl)).
Defined.

End TrailMarkerFacts.
